(** * nof1.ai trading core: PnL correction, risk evaluation, reconciliation

    A shallow embedding of the position lifecycle code of the repository
    (src/scheduler/tradingLoop.ts, src/tools/trading/tradeExecution.ts,
    src/tools/trading/accountManagement.ts, agents/tradingAgent.ts) and the
    properties its specification states about it.

    Conventions of the embedding.
    - A JavaScript [number] is an exact rational ([Q]): every value is finite
      and arithmetic does not round.  [Number.isFinite] is therefore constantly
      true, and the comparisons are the ones of [Q].
    - A SQL table is the list of its rows in insertion order; a statement is a
      function on that list.
    - A call to the exchange is the value it returned; a call that throws is
      [None] where the code catches it.
    - [RISK_PARAMS] (config/riskParams), [getQuantoMultiplier]
      (utils/contractUtils) and the environment are not part of the modelled
      files: they are parameters of the definitions that read them.
    - A quotient with divisor 0 is Infinity or NaN in JavaScript and 0 in
      [Q]; a property that reads such a quotient is stated for a non-zero
      divisor.

    The second part covers the exchange adapters (GateAdapter,
    BinanceAdapter, ExchangeFactory), the technical indicators of the
    trading loop, calculateRisk and the decision parser. *)

From Stdlib Require Import QArith Qabs Qround Qminmax ZArith List Ascii String Bool Lia Lqa.
From stdpp Require Import gmap strings.
Import ListNotations.

Local Open Scope Q_scope.

(** ** Numbers *)

Module Num.

Definition leb (x y : Q) : bool := Qle_bool x y.
Definition ltb (x y : Q) : bool := negb (Qle_bool y x).
Definition geb (x y : Q) : bool := leb y x.
Definition gtb (x y : Q) : bool := ltb y x.
Definition eqb (x y : Q) : bool := Qeq_bool x y.

(** [Number.isFinite]: every modelled number is finite. *)
Definition isFinite (_ : Q) : bool := true.

(** [Math.floor], [Math.ceil], [Math.abs], [Math.max], [Math.min]. *)
Definition floor (x : Q) : Q := inject_Z (Qfloor x).
Definition ceil (x : Q) : Q := inject_Z (Qceiling x).
Definition abs (x : Q) : Q := Qabs x.
Definition max (x y : Q) : Q := if leb x y then y else x.
Definition min (x y : Q) : Q := if leb x y then x else y.

(** [a || b] on numbers: [0] is falsy. *)
Definition orElse (a b : Q) : Q := if eqb a 0 then b else a.

End Num.

(** ** Shared data *)

Inductive Side : Type := long | short.

Definition Side_eqb (a b : Side) : bool :=
  match a, b with
  | long, long | short, short => true
  | _, _ => false
  end.

(** [side === 'long' ? 'short' : 'long'] *)
Definition opposite (s : Side) : Side :=
  match s with long => short | short => long end.

(** The taker fee rate written as [0.0005] at every call site. *)
Definition FEE_RATE : Q := 0.0005.

(** ** PnL and fee calculator

    The same four expressions appear (inlined) in [closePositionTool], in the
    forced liquidation of [executeTradingDecision] and in
    [fixHistoricalPnlRecords]. *)

(** [side === "long" ? (exit - entry) : (entry - exit)] *)
Definition priceChange (side : Side) (entry exit : Q) : Q :=
  match side with
  | long => exit - entry
  | short => entry - exit
  end.

Definition computeFee (price quantity multiplier rate : Q) : Q :=
  price * quantity * multiplier * rate.

Definition computeGrossPnl (side : Side) (entry exit quantity multiplier : Q) : Q :=
  priceChange side entry exit * quantity * multiplier.

Definition computeTotalFee (entry exit quantity multiplier : Q) : Q :=
  computeFee entry quantity multiplier FEE_RATE
  + computeFee exit quantity multiplier FEE_RATE.

Definition computeNetPnl (side : Side) (entry exit quantity multiplier : Q) : Q :=
  computeGrossPnl side entry exit quantity multiplier
  - computeTotalFee entry exit quantity multiplier.

(** The consistency check both close paths run just before the INSERT:
    [if (Math.abs(pnl - notionalValue) < Math.abs(pnl - expectedPnl)) pnl = expectedPnl]. *)
Definition correctPnl (notionalValue expectedPnl pnl : Q) : Q :=
  if Num.ltb (Num.abs (pnl - notionalValue)) (Num.abs (pnl - expectedPnl))
  then expectedPnl
  else pnl.

(** ** Exchange interface (services/exchange/IExchangeClient) *)

Module Position.
(** An element of [getPositions()]. *)
Record t : Type := mk {
  symbol : string;
  exchangeSymbol : string;
  side : Side;
  quantity : Q;
  entryPrice : Q;
  currentPrice : Q;
  leverage : Q;
  liquidationPrice : Q;
  unrealizedPnl : Q;
  margin : Q
}.
End Position.

Module Order.
(** The value of [placeOrder(...)]; [id] may be missing. *)
Record t : Type := mk { id : option string; status : string }.
End Order.

Module OrderDetail.
(** The value of [getOrder(id)]. *)
Record t : Type := mk { status : string; filled : Q; price : Q }.
End OrderDetail.

Module OrderParams.
(** The argument of [placeOrder]. *)
Record t : Type := mk {
  symbol : string;
  side : Side;
  quantity : Q;
  leverage : option Q;
  reduceOnly : bool
}.
End OrderParams.

(** ** Ledger tables *)

Module Trade.
(** A row of [trades].  [id] is the key the database assigns on INSERT;
    [pnl] and [fee] are nullable columns. *)
Record t : Type := mk {
  id : Z;
  order_id : string;
  symbol : string;
  side : Side;
  type : string;
  price : Q;
  quantity : Q;
  leverage : Q;
  pnl : option Q;
  fee : option Q;
  timestamp : string;
  status : string
}.

Definition with_pnl_fee (p f : Q) (r : t) : t :=
  mk (id r) (order_id r) (symbol r) (side r) (type r) (price r) (quantity r)
     (leverage r) (Some p) (Some f) (timestamp r) (status r).
End Trade.

(** [order.id?.toString() || ""] *)
Definition orderIdText (o : Order.t) : string :=
  match Order.id o with Some i => i | None => EmptyString end.

(** [finalOrderStatus === 'finished' ? 'filled' : 'pending'] *)
Definition dbStatus (finalOrderStatus : string) : string :=
  if String.eqb finalOrderStatus "finished" then "filled"%string else "pending"%string.

(** ** closePositionTool (tools/trading/tradeExecution.ts) *)

Module ClosePosition.

(** What the tool reads from outside during one call. *)
Record World : Type := mkWorld {
  positions : list Position.t;            (* client.getPositions() *)
  markPrice : Q;                          (* getFuturesTicker(symbol).markPrice *)
  quantoMultiplier : Q;                   (* getQuantoMultiplier(contract) *)
  order : Order.t;                        (* the value of placeOrder *)
  getOrder : nat -> option OrderDetail.t; (* n-th getOrder call; None: it throws *)
  now : string                            (* getChinaTimeISO() *)
}.

(** The position data the tool works with after the zero-price fallback. *)
Record Live : Type := mkLive {
  side : Side;
  quantity : Q;
  entryPrice : Q;
  currentPrice : Q;
  leverage : Q
}.

(** State of the fill polling: the four variables the loop assigns. *)
Record Fill : Type := mkFill {
  actualExitPrice : Q;
  actualCloseSize : Q;
  finalOrderStatus : string;
  pnl : Q
}.

Inductive Reject : Type :=
| InvalidPercentage
| NoPosition.

Inductive Result : Type :=
| Failure (why : Reject)
| Success (placed : OrderParams.t) (row : Trade.t) (deletePosition : bool).

(** [!Number.isFinite(percentage) || percentage <= 0 || percentage > 100] *)
Definition invalidPercentage (percentage : Q) : bool :=
  negb (Num.isFinite percentage) || Num.leb percentage 0 || Num.gtb percentage 100.

(** [allPositions.find((p) => p.symbol === symbol)] followed by
    [!gatePosition || gatePosition.quantity === 0]. *)
Definition findPosition (symbol : string) (ps : list Position.t) : option Position.t :=
  match List.find (fun p => String.eqb (Position.symbol p) symbol) ps with
  | Some p => if Num.eqb (Position.quantity p) 0 then None else Some p
  | None => None
  end.

(** Zero prices are replaced by the ticker's mark price. *)
Definition resolve (w : World) (p : Position.t) : Live :=
  let currentPrice :=
    if Num.eqb (Position.currentPrice p) 0 then markPrice w else Position.currentPrice p in
  let entryPrice :=
    if Num.eqb (Position.entryPrice p) 0 then currentPrice else Position.entryPrice p in
  mkLive (Position.side p) (Position.quantity p) entryPrice currentPrice (Position.leverage p).

(** [Math.floor((quantity * percentage) / 100)] *)
Definition closeSize (quantity percentage : Q) : Q :=
  Num.floor ((quantity * percentage) / 100).

(** The market order that closes: opposite side, [reduceOnly: true]. *)
Definition closeOrder (symbol : string) (l : Live) (percentage : Q) : OrderParams.t :=
  OrderParams.mk symbol (opposite (side l)) (closeSize (quantity l) percentage) None true.

(** A successful [getOrder]: take the fill and recompute the net PnL from
    the actual fill price. *)
Definition onDetail (w : World) (l : Live) (st : Fill) (d : OrderDetail.t) : Fill :=
  let size := if Num.gtb (OrderDetail.filled d) 0 then OrderDetail.filled d
              else actualCloseSize st in
  let exit := if Num.gtb (OrderDetail.price d) 0 then OrderDetail.price d
              else actualExitPrice st in
  mkFill exit size (OrderDetail.status d)
         (computeNetPnl (side l) (entryPrice l) exit size (quantoMultiplier w)).

(** The last failed retry: fall back on the estimate. *)
Definition onExhausted (w : World) (l : Live) (size : Q) (st : Fill) : Fill :=
  let m := quantoMultiplier w in
  mkFill (currentPrice l) size (finalOrderStatus st)
         (computeGrossPnl (side l) (entryPrice l) (currentPrice l) size m
          - computeFee (entryPrice l) size m FEE_RATE
          - computeFee (currentPrice l) size m FEE_RATE).

(** [while (retryCount < maxRetries)]: [left] attempts remain, [call] is the
    index of the next [getOrder] call. *)
Fixpoint poll (w : World) (l : Live) (size : Q) (left call : nat) (st : Fill) : Fill :=
  match left with
  | O => st
  | S left' =>
      match getOrder w call with
      | Some d => onDetail w l st d
      | None =>
          match left' with
          | O => onExhausted w l size st
          | S _ => poll w l size left' (S call) st
          end
      end
  end.

Definition maxRetries : nat := 3.

(** The state before polling and the polling itself ([if (order.id)]). *)
Definition fill (w : World) (l : Live) (size : Q) : Fill :=
  let m := quantoMultiplier w in
  let st := mkFill (currentPrice l) size (Order.status (order w))
                   (computeNetPnl (side l) (entryPrice l) (currentPrice l) size m) in
  match Order.id (order w) with
  | Some _ => poll w l size maxRetries 0 st
  | None => st
  end.

(** Lines 709-773: fee for the record, the consistency check on [pnl], and
    the row given to [INSERT INTO trades]. *)
Definition tradeRow (w : World) (symbol : string) (l : Live) (st : Fill) : Trade.t :=
  let m := quantoMultiplier w in
  let totalFee := computeTotalFee (entryPrice l) (actualExitPrice st) (actualCloseSize st) m in
  let notionalValue := actualExitPrice st * actualCloseSize st * m in
  let expectedPnl :=
    priceChange (side l) (entryPrice l) (actualExitPrice st) * actualCloseSize st * m
    - totalFee in
  Trade.mk 0 (orderIdText (order w)) symbol (side l) "close"
           (actualExitPrice st) (actualCloseSize st) (leverage l)
           (Some (correctPnl notionalValue expectedPnl (pnl st)))
           (Some totalFee) (now w) (dbStatus (finalOrderStatus st)).

(** The tool.  A thrown exchange error (not modelled) ends in the [catch]
    with [success: false]; the cancellation of linked stop orders does not
    touch the trade row and is left out. *)
Definition closePositionTool (w : World) (symbol : string) (percentage : Q) : Result :=
  if invalidPercentage percentage then Failure InvalidPercentage
  else
    match findPosition symbol (positions w) with
    | None => Failure NoPosition
    | Some p =>
        let l := resolve w p in
        let size := closeSize (quantity l) percentage in
        let st := fill w l size in
        Success (closeOrder symbol l percentage) (tradeRow w symbol l st)
                (Num.eqb percentage 100)
    end.

End ClosePosition.

(** ** Strategy parameters (agents/tradingAgent.ts) *)

Inductive TradingStrategy : Type := conservative | balanced | aggressive.

Module StrategyParams.
Record StopLoss : Type := mkStopLoss { low : Q; mid : Q; high : Q }.

(** The numeric fields of [StrategyParams]; the others are prompt text. *)
Record t : Type := mk {
  leverageMin : Q;
  leverageMax : Q;
  positionSizeMin : Q;
  positionSizeMax : Q;
  stopLoss : StopLoss
}.
End StrategyParams.

(** [getStrategyParams]; [maxLeverage] is [RISK_PARAMS.MAX_LEVERAGE]. *)
Definition getStrategyParams (maxLeverage : Q) (strategy : TradingStrategy)
  : StrategyParams.t :=
  let conservativeLevMin := Num.max 1 (Num.ceil (maxLeverage * 0.3)) in
  let conservativeLevMax := Num.max 2 (Num.ceil (maxLeverage * 0.6)) in
  let balancedLevMin := Num.max 2 (Num.ceil (maxLeverage * 0.6)) in
  let balancedLevMax := Num.max 3 (Num.ceil (maxLeverage * 0.85)) in
  let aggressiveLevMin := Num.max 3 (Num.ceil (maxLeverage * 0.85)) in
  let aggressiveLevMax := maxLeverage in
  match strategy with
  | conservative =>
      StrategyParams.mk conservativeLevMin conservativeLevMax 15 22
        (StrategyParams.mkStopLoss (-3.5) (-3) (-2.5))
  | balanced =>
      StrategyParams.mk balancedLevMin balancedLevMax 20 27
        (StrategyParams.mkStopLoss (-3) (-2.5) (-2))
  | aggressive =>
      StrategyParams.mk aggressiveLevMin aggressiveLevMax 25 32
        (StrategyParams.mkStopLoss (-2.5) (-2) (-1.5))
  end.

(** ** The positions table *)

Module PositionRow.
(** A row of [positions].  [opened_at] stands for the epoch milliseconds
    that [new Date(opened_at).getTime()] reads from the stored text. *)
Record t : Type := mk {
  symbol : string;
  quantity : Q;
  entry_price : Q;
  current_price : Q;
  liquidation_price : Q;
  unrealized_pnl : Q;
  leverage : Q;
  side : Side;
  stop_loss : option Q;
  profit_target : option Q;
  sl_order_id : option string;
  tp_order_id : option string;
  entry_order_id : string;
  opened_at : Z;
  peak_pnl_percent : option Q
}.

Definition with_peak (v : option Q) (r : t) : t :=
  mk (symbol r) (quantity r) (entry_price r) (current_price r) (liquidation_price r)
     (unrealized_pnl r) (leverage r) (side r) (stop_loss r) (profit_target r)
     (sl_order_id r) (tp_order_id r) (entry_order_id r) (opened_at r) v.
End PositionRow.

Module PositionsTable.

Definition hasSymbol (s : string) (r : PositionRow.t) : bool :=
  String.eqb (PositionRow.symbol r) s.

(** [SELECT ... FROM positions WHERE symbol = ?] *)
Definition selectBySymbol (s : string) (rows : list PositionRow.t) : list PositionRow.t :=
  List.filter (hasSymbol s) rows.

(** [DELETE FROM positions WHERE symbol = ?] *)
Definition deleteBySymbol (s : string) (rows : list PositionRow.t) : list PositionRow.t :=
  List.filter (fun r => negb (hasSymbol s r)) rows.

(** [UPDATE positions SET peak_pnl_percent = ? WHERE symbol = ?] *)
Definition updatePeak (s : string) (v : Q) (rows : list PositionRow.t)
  : list PositionRow.t :=
  List.map (fun r => if hasSymbol s r then PositionRow.with_peak (Some v) r else r) rows.

(** [Number.parseFloat(rows[0].peak_pnl_percent as string || "0")] on the
    rows selected for a symbol; [None] when there is no row. *)
Definition readPeak (s : string) (rows : list PositionRow.t) : option Q :=
  match selectBySymbol s rows with
  | [] => None
  | r :: _ => Some (match PositionRow.peak_pnl_percent r with
                    | Some v => v
                    | None => 0
                    end)
  end.

End PositionsTable.

(** Column defaults of [positions] for the columns an INSERT leaves out.
    They come from the schema (database/schema), which is not among the
    modelled files, and are a parameter of the statements that rely on them. *)
Module Schema.
Record t : Type := mk {
  stop_loss : option Q;
  profit_target : option Q;
  sl_order_id : option string;
  tp_order_id : option string;
  peak_pnl_percent : option Q
}.

(** Every omitted column is NULL. *)
Definition nulls : t := mk None None None None None.

(** As [nulls], with [peak_pnl_percent REAL DEFAULT 0]. *)
Definition zeroPeak : t := mk None None None None (Some 0).
End Schema.

(** ** Reconciliation *)

Module Sync.

Record World : Type := mkWorld {
  ticker : string -> option Q;  (* getFuturesTicker(symbol).markPrice; None: it throws *)
  nowMillis : Z;                (* new Date() *)
  nowText : string              (* Date.now() printed *)
}.

(** [new Map(dbResult.rows.map((row) => [row.symbol, row]))]: a later row
    replaces an earlier one with the same symbol. *)
Definition dbPositionsMap (rows : list PositionRow.t) : gmap string PositionRow.t :=
  fold_left (fun m r => <[PositionRow.symbol r := r]> m) rows ∅.

(** [x || null] on a nullable number and on a nullable string. *)
Definition truthyQ (x : option Q) : option Q :=
  match x with
  | Some v => if Num.eqb v 0 then None else Some v
  | None => None
  end.

Definition truthyS (x : option string) : option string :=
  match x with
  | Some EmptyString => None
  | other => other
  end.

(** The row [syncPositionsFromGate] inserts for one exchange position. *)
Definition syncRow (sch : Schema.t) (w : World) (m : gmap string PositionRow.t)
           (pos : Position.t) : PositionRow.t :=
  let symbol := Position.symbol pos in
  let leverage := Position.leverage pos in
  let side := Position.side pos in
  let '(entryPrice, currentPrice) :=
    if Num.eqb (Position.entryPrice pos) 0 || Num.eqb (Position.currentPrice pos) 0 then
      match ticker w symbol with
      | Some mark =>
          let c := if Num.eqb (Position.currentPrice pos) 0 then mark
                   else Position.currentPrice pos in
          let e := if Num.eqb (Position.entryPrice pos) 0 then c
                   else Position.entryPrice pos in
          (e, c)
      | None => (Position.entryPrice pos, Position.currentPrice pos)
      end
    else (Position.entryPrice pos, Position.currentPrice pos) in
  let liquidationPrice :=
    if Num.eqb (Position.liquidationPrice pos) 0 && Num.gtb entryPrice 0 then
      match side with
      | long => entryPrice * (1 - 0.9 / leverage)
      | short => entryPrice * (1 + 0.9 / leverage)
      end
    else Position.liquidationPrice pos in
  let dbPos := m !! symbol in
  let entryOrderId :=
    match dbPos with
    | Some r =>
        match PositionRow.entry_order_id r with
        | EmptyString => ("synced-" ++ symbol ++ "-" ++ nowText w)%string
        | i => i
        end
    | None => ("synced-" ++ symbol ++ "-" ++ nowText w)%string
    end in
  PositionRow.mk symbol (Position.quantity pos) entryPrice currentPrice liquidationPrice
    (Position.unrealizedPnl pos) leverage side
    (truthyQ (dbPos ≫= PositionRow.stop_loss))
    (truthyQ (dbPos ≫= PositionRow.profit_target))
    (truthyS (dbPos ≫= PositionRow.sl_order_id))
    (truthyS (dbPos ≫= PositionRow.tp_order_id))
    entryOrderId
    (match dbPos with Some r => PositionRow.opened_at r | None => nowMillis w end)
    (Schema.peak_pnl_percent sch).

(** [syncPositionsFromGate] (scheduler/tradingLoop.ts): the positions table
    after the call, given the exchange's position list. *)
Definition syncPositionsFromGate (sch : Schema.t) (w : World)
           (positions : list Position.t) (rows : list PositionRow.t)
  : list PositionRow.t :=
  if Nat.eqb (length positions) 0 && Nat.ltb 0 (length rows) then rows
  else List.map (syncRow sch w (dbPositionsMap rows)) positions.

(** The row [syncPositionsTool] inserts for one exchange position. *)
Definition toolRow (sch : Schema.t) (w : World) (p : Position.t) : PositionRow.t :=
  PositionRow.mk (Position.symbol p) (Position.quantity p) (Position.entryPrice p)
    (Position.currentPrice p) (Position.liquidationPrice p) (Position.unrealizedPnl p)
    (Position.leverage p) (Position.side p)
    (Schema.stop_loss sch) (Schema.profit_target sch)
    (Schema.sl_order_id sch) (Schema.tp_order_id sch)
    "synced" (nowMillis w) (Schema.peak_pnl_percent sch).

(** [syncPositionsTool] (tools/trading/accountManagement.ts):
    [DELETE FROM positions], then one INSERT per exchange position. *)
Definition syncPositionsTool (sch : Schema.t) (w : World)
           (positions : list Position.t) (rows : list PositionRow.t)
  : list PositionRow.t :=
  List.map (toolRow sch w) positions.

End Sync.

(** ** Forced risk control (step 4 of executeTradingDecision) *)

Module RiskEvaluator.

(** A position as [getPositions] of the trading loop formats it. *)
Record Pos : Type := mkPos {
  symbol : string;
  side : Side;
  quantity : Q;
  entry_price : Q;
  current_price : Q;
  leverage : Q;
  opened_at : Z
}.

(** Which of the four [closeReason] messages was assigned last:
    "Holding time reached ...", "Triggered dynamic stop loss ...",
    "Triggered trailing take profit ...", "Triggered peak drawdown
    protection ..."; [NoReason] is the initial empty string. *)
Inductive Reason : Type :=
| NoReason
| MAX_HOLD_TIME
| STOP_LOSS
| TRAILING_STOP
| PEAK_DRAWDOWN.

Record Verdict : Type := mkVerdict { shouldClose : bool; closeReason : Reason }.

Definition priceChangePercent (p : Pos) : Q :=
  if Num.gtb (entry_price p) 0 then
    (current_price p - entry_price p) / entry_price p * 100
    * (match side p with long => 1 | short => -1 end)
  else 0.

Definition pnlPercent (p : Pos) : Q := priceChangePercent p * leverage p.

(** "Get and update peak profit": the local [peakPnlPercent] and the table
    after the optional UPDATE. *)
Definition trackPeak (p : Pos) (rows : list PositionRow.t) : Q * list PositionRow.t :=
  match PositionsTable.readPeak (symbol p) rows with
  | None => (0, rows)
  | Some peak =>
      if Num.gtb (pnlPercent p) peak
      then (pnlPercent p, PositionsTable.updatePeak (symbol p) (pnlPercent p) rows)
      else (peak, rows)
  end.

(** [(now.getTime() - openedTime.getTime()) / (1000 * 60 * 60)] *)
Definition holdingHours (now : Z) (p : Pos) : Q :=
  inject_Z (now - opened_at p) / (1000 * 60 * 60).

(** The stop-loss line for a leverage. *)
Definition stopLossPercent (params : StrategyParams.t) (leverage : Q) : Q :=
  let lmin := StrategyParams.leverageMin params in
  let lmax := StrategyParams.leverageMax params in
  let leverageMid := Num.floor ((lmin + lmax) / 2) in
  let leverageHigh := Num.floor (lmin + (lmax - lmin) * 0.75) in
  if Num.geb leverage leverageHigh then
    StrategyParams.high (StrategyParams.stopLoss params)
  else if Num.geb leverage leverageMid then
    StrategyParams.mid (StrategyParams.stopLoss params)
  else
    StrategyParams.low (StrategyParams.stopLoss params).

(** The trailing line chosen from the current PnL%. *)
Definition trailingStopPercent (stopLoss pnl : Q) : Q :=
  if Num.geb pnl 25 then 15
  else if Num.geb pnl 15 then 8
  else if Num.geb pnl 8 then 3
  else stopLoss.

(** a) 36-hour check *)
Definition checkHolding (now : Z) (p : Pos) (v : Verdict) : Verdict :=
  if Num.geb (holdingHours now p) 36 then mkVerdict true MAX_HOLD_TIME else v.

(** b) dynamic stop loss *)
Definition checkStopLoss (stopLoss pnl : Q) (v : Verdict) : Verdict :=
  if Num.leb pnl stopLoss then mkVerdict true STOP_LOSS else v.

(** c) trailing take profit, under [if (!shouldClose)] *)
Definition checkTrailing (stopLoss pnl : Q) (v : Verdict) : Verdict :=
  if negb (shouldClose v) then
    let trailing := trailingStopPercent stopLoss pnl in
    if Num.ltb pnl trailing && Num.gtb trailing stopLoss
    then mkVerdict true TRAILING_STOP
    else v
  else v.

(** d) peak drawdown protection, under [if (!shouldClose && peakPnlPercent > 5)] *)
Definition checkPeakDrawdown (peak pnl : Q) (v : Verdict) : Verdict :=
  if negb (shouldClose v) && Num.gtb peak 5 then
    let drawdownFromPeak :=
      if Num.gtb peak 0 then (peak - pnl) / peak * 100 else 0 in
    if Num.geb drawdownFromPeak 30 then mkVerdict true PEAK_DRAWDOWN else v
  else v.

(** The four checks in the order the loop body runs them. *)
Definition evaluate (now : Z) (params : StrategyParams.t) (p : Pos) (peak : Q) : Verdict :=
  let pnl := pnlPercent p in
  let stopLoss := stopLossPercent params (leverage p) in
  let v0 := mkVerdict false NoReason in
  let v1 := checkHolding now p v0 in
  let v2 := checkStopLoss stopLoss pnl v1 in
  let v3 := checkTrailing stopLoss pnl v2 in
  checkPeakDrawdown peak pnl v3.

(** One pass of the loop body up to the close decision: peak tracking
    against the table, then the verdict. *)
Definition check (now : Z) (params : StrategyParams.t) (p : Pos)
           (rows : list PositionRow.t) : Verdict * list PositionRow.t :=
  let '(peak, rows') := trackPeak p rows in
  (evaluate now params p peak, rows').

End RiskEvaluator.

(** ** Forced liquidation (the [if (shouldClose)] branch of the same loop) *)

Module ForcedLiquidation.

Record World : Type := mkWorld {
  order : Order.t;                        (* the value of placeOrder *)
  getOrder : nat -> option OrderDetail.t; (* n-th getOrder call; None: it throws *)
  quantoMultiplier : Q;                   (* getQuantoMultiplier(contract) *)
  now : string                            (* getChinaTimeISO() *)
}.

(** The variables of step 2, "wait for order completion". *)
Record Fill : Type := mkFill {
  actualExitPrice : Q;
  actualQuantity : Q;
  pnl : Q;
  totalFee : Q;
  orderFilled : bool
}.

Definition initial (p : RiskEvaluator.Pos) : Fill :=
  mkFill 0 (Num.abs (RiskEvaluator.quantity p)) 0 0 false.

(** [orderStatus.status === 'finished']: fill data and net PnL. *)
Definition onFinished (w : World) (p : RiskEvaluator.Pos) (d : OrderDetail.t) : Fill :=
  let exit := OrderDetail.price d in
  let qty := OrderDetail.filled d in
  let entry := RiskEvaluator.entry_price p in
  let m := quantoMultiplier w in
  let fee := computeTotalFee entry exit qty m in
  mkFill exit qty (computeGrossPnl (RiskEvaluator.side p) entry exit qty m - fee) fee true.

(** [for (let retry = 0; retry < 5; retry++)] *)
Fixpoint poll (w : World) (p : RiskEvaluator.Pos) (left retry : nat) (st : Fill) : Fill :=
  match left with
  | O => st
  | S left' =>
      match getOrder w retry with
      | Some d =>
          if String.eqb (OrderDetail.status d) "finished" then onFinished w p d
          else poll w p left' (S retry) st
      | None => poll w p left' (S retry) st
      end
  end.

(** Step 3: the check on [pnl] and the row given to [INSERT INTO trades]. *)
Definition tradeRow (w : World) (p : RiskEvaluator.Pos) (st : Fill) : Trade.t :=
  let side := RiskEvaluator.side p in
  let entry := RiskEvaluator.entry_price p in
  let m := quantoMultiplier w in
  let finalPrice := Num.orElse (actualExitPrice st) (RiskEvaluator.current_price p) in
  let notionalValue := finalPrice * actualQuantity st * m in
  let expectedPnl :=
    priceChange side entry finalPrice * actualQuantity st * m - totalFee st in
  Trade.mk 0 (orderIdText (order w)) (RiskEvaluator.symbol p) side "close"
           finalPrice (actualQuantity st)
           (Num.orElse (RiskEvaluator.leverage p) 1)
           (Some (correctPnl notionalValue expectedPnl (pnl st)))
           (Some (totalFee st)) (now w)
           (if orderFilled st then "filled" else "pending")%string.

(** The close order, the trade row and the table after
    [DELETE FROM positions WHERE symbol = ?]. *)
Definition liquidate (w : World) (p : RiskEvaluator.Pos) (rows : list PositionRow.t)
  : OrderParams.t * Trade.t * list PositionRow.t :=
  (OrderParams.mk (RiskEvaluator.symbol p) (opposite (RiskEvaluator.side p))
                  (RiskEvaluator.quantity p) None true,
   tradeRow w p (poll w p 5 0 (initial p)),
   PositionsTable.deleteBySymbol (RiskEvaluator.symbol p) rows).

End ForcedLiquidation.

(** ** Account guard *)

Module AccountGuard.



(** The drawdown thresholds of [RISK_PARAMS]. *)
Record Drawdown : Type := mkDrawdown {
  ACCOUNT_DRAWDOWN_WARNING_PERCENT : Q;
  ACCOUNT_DRAWDOWN_NO_NEW_POSITION_PERCENT : Q;
  ACCOUNT_DRAWDOWN_FORCE_CLOSE_PERCENT : Q
}.

(** [peakBalance > 0 ? ((peakBalance - totalBalance) / peakBalance) * 100 : 0]
    of [openPositionTool]. *)
Definition drawdownFromPeak (peakBalance totalBalance : Q) : Q :=
  if Num.gtb peakBalance 0 then (peakBalance - totalBalance) / peakBalance * 100 else 0.

(** The pre-trade guard of [openPositionTool]: [true] rejects the open. *)
Definition blocksNewPosition (rp : Drawdown) (peakBalance totalBalance : Q) : bool :=
  Num.geb (drawdownFromPeak peakBalance totalBalance)
          (ACCOUNT_DRAWDOWN_NO_NEW_POSITION_PERCENT rp).





End AccountGuard.

(** ** fixHistoricalPnlRecords (scheduler/tradingLoop.ts) *)

Module PnlFixer.

Definition isClose (r : Trade.t) : bool := String.eqb (Trade.type r) "close".

(** [ORDER BY timestamp DESC]: insertion into a list that is already in
    descending order; rows with equal timestamps keep their table order. *)
Fixpoint insertDesc (r : Trade.t) (l : list Trade.t) : list Trade.t :=
  match l with
  | [] => [r]
  | x :: l' =>
      if String.leb (Trade.timestamp x) (Trade.timestamp r)
      then r :: x :: l'
      else x :: insertDesc r l'
  end.

Definition orderByTimestampDesc (l : list Trade.t) : list Trade.t :=
  fold_right insertDesc [] l.

(** [SELECT * FROM trades WHERE type = 'close' ORDER BY timestamp DESC LIMIT 50] *)
Definition closeTrades (t : list Trade.t) : list Trade.t :=
  firstn 50 (orderByTimestampDesc (List.filter isClose t)).

(** [WHERE symbol = ? AND type = 'open' AND timestamp < ?] *)
Definition isOpenBefore (symbol timestamp : string) (r : Trade.t) : bool :=
  String.eqb (Trade.symbol r) symbol
  && String.eqb (Trade.type r) "open"
  && String.ltb (Trade.timestamp r) timestamp.

(** [... ORDER BY timestamp DESC LIMIT 1], then [rows[0]] *)
Definition openTradeFor (symbol timestamp : string) (t : list Trade.t) : option Trade.t :=
  List.hd_error (orderByTimestampDesc (List.filter (isOpenBefore symbol timestamp) t)).

(** [UPDATE trades SET pnl = ?, fee = ? WHERE id = ?] *)
Definition updateTrade (id : Z) (pnl fee : Q) (t : list Trade.t) : list Trade.t :=
  List.map (fun r => if Z.eqb (Trade.id r) id then Trade.with_pnl_fee pnl fee r else r) t.

(** [Number.parseFloat(x as string || "0")] on a nullable numeric column. *)
Definition parseOrZero (x : option Q) : Q :=
  match x with Some v => v | None => 0 end.

Section Fixer.

(** [getQuantoMultiplier] of utils/contractUtils: the multiplier of a
    contract name. *)
Variable getQuantoMultiplier : string -> Q.

(** The recomputed [(correctPnl, totalFee)] of a close trade. *)
Definition recompute (closeTrade openTrade : Trade.t) : Q * Q :=
  let closePrice := Trade.price closeTrade in
  let quantity := Trade.quantity closeTrade in
  let openPrice := Trade.price openTrade in
  let quantoMultiplier :=
    getQuantoMultiplier (Trade.symbol closeTrade ++ "_USDT")%string in
  let grossPnl :=
    priceChange (Trade.side closeTrade) openPrice closePrice * quantity * quantoMultiplier in
  let openFee := openPrice * quantity * quantoMultiplier * 0.0005 in
  let closeFee := closePrice * quantity * quantoMultiplier * 0.0005 in
  let totalFee := openFee + closeFee in
  (grossPnl - totalFee, totalFee).

(** [pnlDiff > 0.5 || feeDiff > 0.1] *)
Definition needsFix (closeTrade : Trade.t) (correct totalFee : Q) : bool :=
  let recordedPnl := parseOrZero (Trade.pnl closeTrade) in
  let recordedFee := parseOrZero (Trade.fee closeTrade) in
  Num.gtb (Num.abs (recordedPnl - correct)) 0.5
  || Num.gtb (Num.abs (recordedFee - totalFee)) 0.1.

(** One iteration of [for (const closeTrade of result.rows)]: the row
    comes from the query result, the lookup and the UPDATE act on the
    table as it is now. *)
Definition fixOne (t : list Trade.t) (closeTrade : Trade.t) : list Trade.t :=
  match openTradeFor (Trade.symbol closeTrade) (Trade.timestamp closeTrade) t with
  | None => t
  | Some openTrade =>
      let '(correct, totalFee) := recompute closeTrade openTrade in
      if needsFix closeTrade correct totalFee
      then updateTrade (Trade.id closeTrade) correct totalFee t
      else t
  end.

(** The table after one run. *)
Definition fixHistoricalPnlRecords (t : list Trade.t) : list Trade.t :=
  fold_left fixOne (closeTrades t) t.

(** What one run does to a single row, when every row has its own [id]:
    a row among the selected close trades is recomputed against the open
    trade found in the table the run started from; any other row is kept. *)
Definition fixRow (t : list Trade.t) (r : Trade.t) : Trade.t :=
  match openTradeFor (Trade.symbol r) (Trade.timestamp r) t with
  | None => r
  | Some openTrade =>
      let '(correct, totalFee) := recompute r openTrade in
      if needsFix r correct totalFee then Trade.with_pnl_fee correct totalFee r else r
  end.

Definition fixSelected (t sel : list Trade.t) (r : Trade.t) : Trade.t :=
  if existsb (fun c => Z.eqb (Trade.id c) (Trade.id r)) sel then fixRow t r else r.

End Fixer.

(** The columns a run never writes: a row with [pnl] and [fee] blanked. *)
Definition key (r : Trade.t) : Trade.t :=
  Trade.mk (Trade.id r) (Trade.order_id r) (Trade.symbol r) (Trade.side r) (Trade.type r)
           (Trade.price r) (Trade.quantity r) (Trade.leverage r) None None
           (Trade.timestamp r) (Trade.status r).

End PnlFixer.

(** ** openPositionTool (tools/trading/tradeExecution.ts) *)

Module OpenPosition.

(** The trade intent: the tool's arguments. *)
Record Intent : Type := mkIntent {
  symbol : string;
  side : Side;
  leverage : Q;
  amountUsdt : Q
}.

(** [RISK_PARAMS] and the two environment variables the tool reads. *)
Record Config : Type := mkConfig {
  MAX_LEVERAGE : Q;
  MAX_POSITIONS : Q;
  drawdown : AccountGuard.Drawdown;
  reversePositions : bool;   (* process.env.REVERSE_POSITIONS === 'true' *)
  exchangeType : string      (* process.env.EXCHANGE || 'binance' *)
}.

Record World : Type := mkWorld {
  positions : list Position.t;            (* client.getPositions() *)
  totalBalance : Q;                       (* getFuturesAccount() *)
  availableBalance : Q;
  peak : option Q;                        (* SELECT MAX(total_value) FROM account_history *)
  getQuantoMultiplier : string -> Q;
  contract : string;                      (* client.normalizeSymbol(symbol) *)
  lastPrice : Q;                          (* getFuturesTicker(symbol).lastPrice *)
  orderSizeMin : Q;                       (* getContractInfo(symbol) *)
  orderSizeMax : Q;
  order : Order.t;                        (* the value of placeOrder *)
  getOrder : nat -> option OrderDetail.t; (* n-th getOrder call; None: it throws *)
  now : string
}.

Inductive Reject : Type :=
| InvalidAmount
| InvalidLeverage
| MaxPositionsReached
| OppositeSideHeld
| AvailableBalanceAnomaly
| DrawdownProtection
| ExposureLimit
| MinNotional
| BelowMinSize.

Inductive After : Type :=
| SlippageRollback (rollback : OrderParams.t)
| NotFilled
| Recorded (row : Trade.t).

Inductive Result : Type :=
| Rejected (why : Reject)
| Placed (o : OrderParams.t) (after : After).

(** "Position Reversal Logic (Contrarian Mode)" *)
Definition effectiveSide (cfg : Config) (requested : Side) : Side :=
  if reversePositions cfg then opposite requested else requested.

Definition invalidAmount (amountUsdt : Q) : bool :=
  negb (Num.isFinite amountUsdt) || Num.leb amountUsdt 0.

Definition invalidLeverage (cfg : Config) (leverage : Q) : bool :=
  negb (Num.isFinite leverage) || Num.ltb leverage 1 || Num.gtb leverage (MAX_LEVERAGE cfg).

(** [rows[0]?.peak ? Number.parseFloat(rows[0].peak) : totalBalance] *)
Definition peakBalance (w : World) : Q :=
  match peak w with
  | Some v => if Num.eqb v 0 then totalBalance w else v
  | None => totalBalance w
  end.

(** The loop summing [posSize * entryPrice * posQuantoMultiplier]. *)
Definition currentTotalExposure (w : World) : Q :=
  fold_left
    (fun acc pos =>
       acc + Position.quantity pos * Position.entryPrice pos
             * getQuantoMultiplier w (Position.exchangeSymbol pos))
    (positions w) 0.

(** Contracts to open: floor, then clamp into [[minSize, maxSize]]. *)
Definition contracts (w : World) (i : Intent) : Q :=
  let quantoMultiplier := getQuantoMultiplier w (contract w) in
  let quantity := (amountUsdt i * leverage i) / (quantoMultiplier * lastPrice w) in
  Num.min (Num.max (Num.floor quantity) (orderSizeMin w)) (orderSizeMax w).

(** The Binance minimum-notional adjustment: [inl] rejects, [inr] is the
    quantity to use. *)
Definition minNotional (cfg : Config) (w : World) (i : Intent) (quantity : Q)
  : Reject + Q :=
  if String.eqb (exchangeType cfg) "binance" then
    if Num.ltb (quantity * lastPrice w) 20 then
      let minQuantityForNotional := Num.ceil ((20 / lastPrice w) * 1000) / 1000 in
      let requiredMargin :=
        (minQuantityForNotional * getQuantoMultiplier w (contract w) * lastPrice w)
        / leverage i in
      if Num.gtb requiredMargin (amountUsdt i) then inl MinNotional
      else inr minQuantityForNotional
    else inr quantity
  else inr quantity.

(** The fill check after the order ([if (order.id)], at most 3 attempts):
    [None] when no order detail was obtained. *)
Fixpoint poll (w : World) (left call : nat) : option OrderDetail.t :=
  match left with
  | O => None
  | S left' =>
      match getOrder w call with
      | Some d => Some d
      | None => poll w left' (S call)
      end
  end.

(** What follows the market order: slippage guard with rollback, the
    not-filled exit, or the [INSERT INTO trades] of the open trade.  The
    later update of the positions table is not part of this model. *)
Definition afterOrder (w : World) (i : Intent) (side : Side) (size : Q) : After :=
  let currentPrice := lastPrice w in
  let record (finalOrderStatus : string) (actualFillSize actualFillPrice : Q) :=
    let finalQuantity := if Num.gtb actualFillSize 0 then actualFillSize else size in
    let positionValue :=
      finalQuantity * getQuantoMultiplier w (contract w) * actualFillPrice in
    Recorded (Trade.mk 0 (orderIdText (order w)) (symbol i) side "open"
                       actualFillPrice finalQuantity (leverage i) None
                       (Some (positionValue * 0.0005)) (now w)
                       (dbStatus finalOrderStatus)) in
  match Order.id (order w) with
  | None => record (Order.status (order w)) 0 currentPrice
  | Some _ =>
      match poll w 3 0 with
      | Some d =>
          let actualFillPrice :=
            if Num.gtb (OrderDetail.price d) 0 then OrderDetail.price d else currentPrice in
          let priceDeviation := Num.abs (actualFillPrice - currentPrice) / currentPrice in
          if Num.gtb priceDeviation 0.02 then
            SlippageRollback (OrderParams.mk (symbol i) (opposite side) size None true)
          else if String.eqb (OrderDetail.status d) "cancelled"
                  || Num.eqb (OrderDetail.filled d) 0 then NotFilled
          else record (OrderDetail.status d) (OrderDetail.filled d) actualFillPrice
      | None => record (Order.status (order w)) size currentPrice
      end
  end.

(** The tool, from the argument checks to the market order and its
    follow-up.  [setLeverage(symbol, leverage)] is called with the intent's
    leverage just before the order.  A thrown exchange error (not modelled)
    ends in the [catch] with [success: false]. *)
Definition openPositionTool (cfg : Config) (w : World) (i : Intent) : Result :=
  let side := effectiveSide cfg (side i) in
  if invalidAmount (amountUsdt i) then Rejected InvalidAmount
  else if invalidLeverage cfg (leverage i) then Rejected InvalidLeverage
  else if Num.geb (inject_Z (Z.of_nat (length (positions w)))) (MAX_POSITIONS cfg)
  then Rejected MaxPositionsReached
  else if match List.find (fun p => String.eqb (Position.symbol p) (symbol i)) (positions w) with
          | Some existingPosition => negb (Side_eqb (Position.side existingPosition) side)
          | None => false
          end
  then Rejected OppositeSideHeld
  else if negb (Num.isFinite (availableBalance w)) || Num.leb (availableBalance w) 0
  then Rejected AvailableBalanceAnomaly
  else if AccountGuard.blocksNewPosition (drawdown cfg) (peakBalance w) (totalBalance w)
  then Rejected DrawdownProtection
  else if Num.gtb (currentTotalExposure w + amountUsdt i * leverage i)
                  (totalBalance w * MAX_LEVERAGE cfg)
  then Rejected ExposureLimit
  else
    match minNotional cfg w i (contracts w i) with
    | inl why => Rejected why
    | inr quantity =>
        let size := match side with long => quantity | short => - quantity end in
        if Num.ltb (Num.abs size) (orderSizeMin w) then Rejected BelowMinSize
        else
          Placed (OrderParams.mk (symbol i) side (Num.abs size) (Some (leverage i)) false)
                 (afterOrder w i side (Num.abs size))
    end.

End OpenPosition.

(** ** Steps 3 and 4 of a trading cycle: reconcile, then check every position *)

Module Tick.

Record World : Type := mkWorld {
  sync : Sync.World;
  schema : Schema.t;
  now : Z;                        (* new Date() of the risk check *)
  params : StrategyParams.t;      (* getStrategyParams(getTradingStrategy()) *)
  orderPlaced : string -> bool    (* placeOrder for the symbol did not throw *)
}.

(** [new Map(dbResult.rows.map((row) => [row.symbol, row.opened_at]))] *)
Definition dbOpenedAtMap (rows : list PositionRow.t) : gmap string Z :=
  fold_left (fun m r => <[PositionRow.symbol r := PositionRow.opened_at r]> m) rows ∅.

(** [getPositions(rawPositions)]: exchange data with the stored opening
    time, or the current time when there is none. *)
Definition formatPosition (w : World) (rows : list PositionRow.t) (p : Position.t)
  : RiskEvaluator.Pos :=
  RiskEvaluator.mkPos (Position.symbol p) (Position.side p) (Position.quantity p)
    (Position.entryPrice p) (Position.currentPrice p) (Position.leverage p)
    (match dbOpenedAtMap rows !! Position.symbol p with
     | Some t => t
     | None => Sync.nowMillis (sync w)
     end).

(** Step 3: sync, and once more when the row count differs. *)
Definition syncStep (w : World) (raw : list Position.t) (rows : list PositionRow.t)
  : list PositionRow.t :=
  let rows1 := Sync.syncPositionsFromGate (schema w) (sync w) raw rows in
  if Nat.eqb (length raw) (length rows1) then rows1
  else Sync.syncPositionsFromGate (schema w) (sync w) raw rows1.

(** Step 4 for one position: peak tracking and verdict; a closed position
    loses its row when the liquidation order went through. *)
Definition riskOne (w : World)
           (acc : list (string * RiskEvaluator.Verdict) * list PositionRow.t)
           (p : RiskEvaluator.Pos)
  : list (string * RiskEvaluator.Verdict) * list PositionRow.t :=
  let '(verdicts, rows) := acc in
  let '(v, rows1) := RiskEvaluator.check (now w) (params w) p rows in
  (verdicts ++ [(RiskEvaluator.symbol p, v)],
   if RiskEvaluator.shouldClose v && orderPlaced w (RiskEvaluator.symbol p)
   then PositionsTable.deleteBySymbol (RiskEvaluator.symbol p) rows1
   else rows1).

(** Steps 3 and 4: the verdicts in loop order and the positions table. *)
Definition riskControl (w : World) (raw : list Position.t) (rows : list PositionRow.t)
  : list (string * RiskEvaluator.Verdict) * list PositionRow.t :=
  let positions := List.map (formatPosition w rows) raw in
  fold_left (riskOne w) positions ([], syncStep w raw rows).

End Tick.

(** ** Technical indicators (scheduler/tradingLoop.ts) *)

Module Indicators.

(** [ensureFinite(value, defaultValue)] *)
Definition ensureFinite (value defaultValue : Q) : Q :=
  if negb (Num.isFinite value) then defaultValue else value.

(** [ensureRange(value, min, max, defaultValue?)] *)
Definition ensureRange (value min max : Q) (defaultValue : option Q) : Q :=
  if negb (Num.isFinite value) then
    match defaultValue with
    | Some d => d
    | None => (min + max) / 2
    end
  else if Num.ltb value min then min
  else if Num.gtb value max then max
  else value.



(** The loop of [calcRSI] over the last [period] price changes: the pair
    [(gains, losses)]. *)
Definition gainsLosses (prices : list Q) (period : nat) : Q * Q :=
  fold_left
    (fun acc i =>
       let change := nth i prices 0 - nth (i - 1) prices 0 in
       if Num.gtb change 0 then (fst acc + change, snd acc)
       else (fst acc, snd acc - change))
    (seq (length prices - period) period) (0, 0).

(** [calcRSI(prices, period)] *)
Definition calcRSI (prices : list Q) (period : nat) : Q :=
  if (length prices <? period + 1)%nat then 50
  else
    let '(gains, losses) := gainsLosses prices period in
    let avgGain := gains / inject_Z (Z.of_nat period) in
    let avgLoss := losses / inject_Z (Z.of_nat period) in
    if Num.eqb avgLoss 0 then (if Num.gtb avgGain 0 then 100 else 50)
    else
      let rs := avgGain / avgLoss in
      let rsi := 100 - 100 / (1 + rs) in
      ensureRange rsi 0 100 (Some 50).






End Indicators.

(** ** Exchange adapters (services/exchange) *)

(** The string operations the adapters use. *)
Module Str.

(** [s.includes(pat)] *)
Fixpoint includes (pat s : string) : bool :=
  String.prefix pat s
  || match s with
     | EmptyString => false
     | String _ s' => includes pat s'
     end.

Fixpoint drop (n : nat) (s : string) : string :=
  match n, s with
  | O, _ => s
  | S n', String _ s' => drop n' s'
  | S _, EmptyString => EmptyString
  end.

(** [s.replace(pat, rep)] with a string pattern: the first occurrence. *)
Fixpoint replace (pat rep s : string) : string :=
  if String.prefix pat s then (rep ++ drop (String.length pat) s)%string
  else match s with
       | EmptyString => EmptyString
       | String c s' => String c (replace pat rep s')
       end.

(** [s.split(sep)[0]] for a one-character separator. *)
Fixpoint splitHead (sep : Ascii.ascii) (s : string) : string :=
  match s with
  | EmptyString => EmptyString
  | String c s' => if Ascii.eqb c sep then EmptyString else String c (splitHead sep s')
  end.

(** [s.toLowerCase()] on ASCII letters. *)
Definition lowerChar (c : Ascii.ascii) : Ascii.ascii :=
  let n := Ascii.nat_of_ascii c in
  if (65 <=? n)%nat && (n <=? 90)%nat then Ascii.ascii_of_nat (n + 32) else c.

Fixpoint toLowerCase (s : string) : string :=
  match s with
  | EmptyString => EmptyString
  | String c s' => String (lowerChar c) (toLowerCase s')
  end.

End Str.

Module GateAdapter.

Definition normalizeSymbol (symbol : string) : string :=
  if Str.includes "_USDT" symbol then symbol else (symbol ++ "_USDT")%string.

Definition denormalizeSymbol (exchangeSymbol : string) : string :=
  Str.replace "_USDT" "" exchangeSymbol.

(** A raw position of the Gate.io client with its numeric fields parsed
    ([parseInt(p.size || "0")], [parseFloat(p.entryPrice || "0")], ...). *)
Record RawPosition : Type := mkRaw {
  contract : string;
  size : Z;
  entryPrice : Q;
  markPrice : Q;
  liqPrice : Q;
  unrealisedPnl : Q;
  leverage : Q;
  margin : Q
}.

Definition toPosition (p : RawPosition) : Position.t :=
  Position.mk (denormalizeSymbol (contract p)) (contract p)
              (if (0 <? size p)%Z then long else short)
              (inject_Z (Z.abs (size p)))
              (entryPrice p) (markPrice p) (leverage p) (liqPrice p)
              (unrealisedPnl p) (margin p).

(** [getPositions()]: positions of size 0 are dropped. *)
Definition getPositions (rawPositions : list RawPosition) : list Position.t :=
  List.map toPosition (List.filter (fun p => negb (Z.eqb (size p) 0)) rawPositions).

(** The signed size [placeOrder] sends:
    [params.side === 'long' ? params.quantity : -params.quantity]. *)
Definition orderSize (params : OrderParams.t) : Q :=
  match OrderParams.side params with
  | long => OrderParams.quantity params
  | short => - OrderParams.quantity params
  end.

End GateAdapter.

Module BinanceAdapter.

Definition normalizeSymbol (symbol : string) : string :=
  if Str.includes "/" symbol then symbol else (symbol ++ "/USDT:USDT")%string.

Definition denormalizeSymbol (exchangeSymbol : string) : string :=
  if negb (Str.includes "/" exchangeSymbol) then exchangeSymbol
  else Str.splitHead "/"%char exchangeSymbol.

End BinanceAdapter.

(** [createExchangeClient] (ExchangeFactory.ts) and the exchange type read
    by [openPositionTool]; [env] is [process.env.EXCHANGE]. *)
Module ExchangeFactory.

Inductive Client : Type := Gate | Binance.

(** [x || d] on an optional string: undefined and the empty string are
    falsy. *)
Definition orDefault (env : option string) (d : string) : string :=
  match env with
  | None | Some EmptyString => d
  | Some s => s
  end.

(** [getConfiguredExchange()] *)
Definition getConfiguredExchange (env : option string) : string :=
  Str.toLowerCase (orDefault env "gateio").

(** [createExchangeClient()], first call; an unknown name falls back to
    Gate.io. *)
Definition createExchangeClient (env : option string) : Client :=
  let exchange := getConfiguredExchange env in
  if String.eqb exchange "gateio" || String.eqb exchange "gate" then Gate
  else if String.eqb exchange "binance" then Binance
  else Gate.

(** [process.env.EXCHANGE || 'binance'] of [openPositionTool]. *)
Definition exchangeType (env : option string) : string := orDefault env "binance".

End ExchangeFactory.

(** [getPositionsTool] (tools/trading/accountManagement.ts): the signed
    size it reports, [p.side === 'long' ? p.quantity : -p.quantity]. *)
Definition reportedSize (p : Position.t) : Q :=
  match Position.side p with
  | long => Position.quantity p
  | short => - Position.quantity p
  end.

(** ** calculateRiskTool (tools/trading/accountManagement.ts) *)

Module CalculateRisk.

Record PositionRisk : Type := mkRisk {
  notionalValue : Q;
  margin : Q;
  riskPercent : Q
}.

Definition positionRisk (getQuantoMultiplier : string -> Q) (p : Position.t)
  : PositionRisk :=
  let notionalValue :=
    Position.quantity p * Position.entryPrice p
    * getQuantoMultiplier (Position.exchangeSymbol p) in
  mkRisk notionalValue (notionalValue / Position.leverage p)
         (if Num.gtb (Position.currentPrice p) 0
          then Num.abs ((Position.currentPrice p - Position.liquidationPrice p)
                        / Position.currentPrice p) * 100
          else 0).

Definition totalNotional (risks : list PositionRisk) : Q :=
  fold_left (fun sum p => sum + notionalValue p) risks 0.

Definition totalMargin (risks : list PositionRisk) : Q :=
  fold_left (fun sum p => sum + margin p) risks 0.

Definition usedMarginPercent (totalBalance : Q) (risks : list PositionRisk) : Q :=
  if Num.gtb totalBalance 0 then totalMargin risks / totalBalance * 100 else 0.

Inductive RiskLevel : Type := low | medium | high.

Definition riskLevel (usedMarginPercent : Q) : RiskLevel :=
  if Num.gtb usedMarginPercent 80 then high
  else if Num.gtb usedMarginPercent 50 then medium
  else low.

End CalculateRisk.

(** ** Decision parser (executeDecisions): the fallback that executes
    decisions found in the model's text *)

Module DecisionParser.









End DecisionParser.

(** ** Scenarios of the specification *)

(** Entry 100, exit 110, 10 contracts, multiplier 1, as the records the
    close tool works on. *)
Definition scenarioWorld : ClosePosition.World :=
  ClosePosition.mkWorld [] 110 1 (Order.mk (Some "1"%string) "finished")
                        (fun _ => None) "2025-01-01T00:00:00".

Definition scenarioLive : ClosePosition.Live :=
  ClosePosition.mkLive long 10 100 110 1.

Definition scenarioFill (pnl : Q) : ClosePosition.Fill :=
  ClosePosition.mkFill 110 10 "finished" pnl.




(** The trailing-stop scenario: long, 10x, entry 100, at a given price. *)
Definition trailingPos (current : Q) : RiskEvaluator.Pos :=
  RiskEvaluator.mkPos "BTC" long 1 100 current 10 0.

(** A positions table holding that long with a stored peak of 8, the
    exchange reporting it at 100.2, and a cycle one hour after the opening
    under the balanced strategy with a maximum leverage of 10. *)
Definition peakRow : PositionRow.t :=
  PositionRow.mk "BTC" 1 100 100.8 91 0.8 10 long None None None None "42" 0 (Some 8).

Definition reportedAt (current : Q) : Position.t :=
  Position.mk "BTC" "BTC_USDT" long 1 100 current 10 91 0.2 10.

Definition cycleWorldWith (sch : Schema.t) : Tick.World :=
  Tick.mkWorld (Sync.mkWorld (fun _ => None) 3600000 "3600000") sch
               3600000 (getStrategyParams 10 balanced) (fun _ => true).

Definition cycleWorld : Tick.World := cycleWorldWith Schema.nulls.

(** Two local rows, for the exchange that reports no position. *)
Definition ethRow : PositionRow.t :=
  PositionRow.mk "ETH" 2 2000 2010 1800 20 5 short None None None None "43" 0 None.

(** The account scenario: thresholds 10 / 15 / 20, the default absolute
    limits of [getAccountRiskConfig] (50 and 10000), peak 1000, balance 800. *)
Definition tiers : AccountGuard.Drawdown := AccountGuard.mkDrawdown 10 15 20.


(** An exchange with no position, a BTC contract of multiplier 1 at price
    100, and an order that fills at that price. *)
Definition calmWorld (totalBalance : Q) (peak : option Q) : OpenPosition.World :=
  OpenPosition.mkWorld [] totalBalance totalBalance peak (fun _ => 1) "BTC_USDT"
    100 1 1000000 (Order.mk (Some "9"%string) "finished")
    (fun _ => Some (OrderDetail.mk "finished" 1 100)) "2025-01-01T00:00:00".

Definition openConfig (reverse : bool) : OpenPosition.Config :=
  OpenPosition.mkConfig 10 5 tiers reverse "gate".

Definition longIntent (leverage : Q) : OpenPosition.Intent :=
  OpenPosition.mkIntent "BTC" long leverage 100.

(** A ledger with one open trade and its close, recorded with the notional
    value as PnL; every contract has multiplier 1. *)
Definition aliasedLedger : list Trade.t :=
  [ Trade.mk 1 "11" "BTC" long "open" 100 10 5 None (Some 0.5)
             "2025-01-01T00:00:00" "filled";
    Trade.mk 2 "12" "BTC" long "close" 110 10 5 (Some 1100) (Some 1.05)
             "2025-01-01T06:00:00" "filled" ].

Definition unitMultiplier (contract : string) : Q := 1.

(** A short from 100 now at 40, 10 contracts at 1x, and an exchange whose
    close order is never reported finished. *)
Definition winningShort : RiskEvaluator.Pos :=
  RiskEvaluator.mkPos "DOGE" short 10 100 40 1 0.

Definition silentWorld : ForcedLiquidation.World :=
  ForcedLiquidation.mkWorld (Order.mk (Some "5"%string) "open") (fun _ => None) 1
                            "2025-01-02T12:00:00".

(** ** Further scenarios *)

(** An exchange that already holds a short in BTC. *)
Definition heldShort : Position.t :=
  Position.mk "BTC" "BTC_USDT" short 3 100 100 5 120 0 60.

Definition hedgedWorld : OpenPosition.World :=
  OpenPosition.mkWorld [heldShort] 1000 1000 None (fun _ => 1) "BTC_USDT"
    100 1 1000000 (Order.mk (Some "9"%string) "finished")
    (fun _ => Some (OrderDetail.mk "finished" 1 100)) "2025-01-01T00:00:00".



(** A long of 10 contracts from 100 whose close fills at 110, and a long of
    half a contract. *)
Definition tenLong : Position.t :=
  Position.mk "BTC" "BTC_USDT" long 10 100 110 5 80 100 200.

Definition filledCloseWorld : ClosePosition.World :=
  ClosePosition.mkWorld [tenLong] 110 1 (Order.mk (Some "3"%string) "open")
                        (fun _ => Some (OrderDetail.mk "finished" 10 110))
                        "2025-01-01T06:00:00".







(** Two raw Gate.io positions, one of size 0 and a short of 3 contracts,
    and a short intent against the exchange that holds that short. *)
Definition rawFlat : GateAdapter.RawPosition :=
  GateAdapter.mkRaw "ETH_USDT" 0 0 0 0 0 1 0.

Definition rawShort : GateAdapter.RawPosition :=
  GateAdapter.mkRaw "BTC_USDT" (-3) 100 100 120 0 5 60.

Definition shortIntent : OpenPosition.Intent :=
  OpenPosition.mkIntent "BTC" short 7 100.



(** ** Predicates used by the properties *)

(** The fill record of [closePositionTool] carries the net PnL of its own
    price and quantity. *)
Definition fillConsistent (w : ClosePosition.World) (l : ClosePosition.Live)
           (st : ClosePosition.Fill) : Prop :=
  ClosePosition.pnl st
  == computeNetPnl (ClosePosition.side l) (ClosePosition.entryPrice l)
       (ClosePosition.actualExitPrice st) (ClosePosition.actualCloseSize st)
       (ClosePosition.quantoMultiplier w).

(** A [getOrder] call that does not report the order as finished: it throws
    or returns another status. *)
Definition unfinished (d : option OrderDetail.t) : Prop :=
  match d with
  | Some d => String.eqb (OrderDetail.status d) "finished" = false
  | None => True
  end.

(** * Properties *)

(** ** Comparisons *)

Module NumFacts.

Lemma leb_le x y : Num.leb x y = true <-> x <= y.
Proof. apply Qle_bool_iff. Qed.

Lemma ltb_lt x y : Num.ltb x y = true <-> x < y.
Proof.
  unfold Num.ltb. rewrite negb_true_iff. split.
  - intros H. apply Qnot_le_lt. intros Hle.
    apply Qle_bool_iff in Hle. congruence.
  - intros H. destruct (Qle_bool y x) eqn:E; [|reflexivity].
    apply Qle_bool_iff in E. exfalso. exact (Qlt_not_le _ _ H E).
Qed.

Lemma ltb_ge x y : Num.ltb x y = false <-> y <= x.
Proof.
  unfold Num.ltb. rewrite negb_false_iff. apply Qle_bool_iff.
Qed.

Lemma leb_gt x y : Num.leb x y = false <-> y < x.
Proof.
  split; intros H.
  - apply ltb_lt. unfold Num.ltb. unfold Num.leb in H. now rewrite H.
  - apply ltb_lt in H. unfold Num.ltb in H. unfold Num.leb.
    now destruct (Qle_bool x y).
Qed.

Lemma geb_ge x y : Num.geb x y = true <-> y <= x.
Proof. apply leb_le. Qed.

Lemma geb_lt x y : Num.geb x y = false <-> x < y.
Proof. apply leb_gt. Qed.

Lemma gtb_gt x y : Num.gtb x y = true <-> y < x.
Proof. apply ltb_lt. Qed.

Lemma gtb_le x y : Num.gtb x y = false <-> x <= y.
Proof. apply ltb_ge. Qed.


End NumFacts.


(** ** The PnL corrector *)

(** The check as a case distinction on the two distances. *)
Lemma correctPnl_spec notionalValue expectedPnl pnl :
  (Qabs (pnl - notionalValue) < Qabs (pnl - expectedPnl)
   -> correctPnl notionalValue expectedPnl pnl = expectedPnl)
  /\ (~ Qabs (pnl - notionalValue) < Qabs (pnl - expectedPnl)
      -> correctPnl notionalValue expectedPnl pnl = pnl).
Proof.
  unfold correctPnl, Num.abs.
  destruct (Num.ltb (Qabs (pnl - notionalValue)) (Qabs (pnl - expectedPnl))) eqn:E.
  - split; [reflexivity|]. intros H. exfalso. apply H. now apply NumFacts.ltb_lt.
  - split; [|reflexivity]. intros H. apply NumFacts.ltb_lt in H. congruence.
Qed.

(** A corrected value is left alone by a second check. *)
Lemma correctPnl_expected notionalValue expectedPnl :
  correctPnl notionalValue expectedPnl expectedPnl = expectedPnl.
Proof.
  unfold correctPnl. now destruct (Num.ltb _ _).
Qed.

(** In [closePositionTool] the expected value of the check is the net PnL
    at the recorded fill. *)
Lemma close_row_pnl w symbol l st :
  Trade.pnl (ClosePosition.tradeRow w symbol l st) =
  Some (correctPnl
          (ClosePosition.actualExitPrice st * ClosePosition.actualCloseSize st
           * ClosePosition.quantoMultiplier w)
          (computeNetPnl (ClosePosition.side l) (ClosePosition.entryPrice l)
             (ClosePosition.actualExitPrice st) (ClosePosition.actualCloseSize st)
             (ClosePosition.quantoMultiplier w))
          (ClosePosition.pnl st)).
Proof. reflexivity. Qed.

(** In the forced liquidation the check subtracts the fee the polling loop
    left in [totalFee]; once the order is reported finished with a non-zero
    price, that is the open plus close fee at the recorded price. *)
Lemma liquidation_fee_finished w p d :
  ~ OrderDetail.price d == 0 ->
  let st := ForcedLiquidation.onFinished w p d in
  Trade.price (ForcedLiquidation.tradeRow w p st) = OrderDetail.price d
  /\ ForcedLiquidation.totalFee st =
     computeTotalFee (RiskEvaluator.entry_price p) (OrderDetail.price d)
       (OrderDetail.filled d) (ForcedLiquidation.quantoMultiplier w).
Proof.
  intros Hd. simpl. split; [|reflexivity].
  unfold Num.orElse, Num.eqb.
  destruct (Qeq_bool (OrderDetail.price d) 0) eqn:E; [|reflexivity].
  apply Qeq_bool_iff in E. contradiction.
Qed.

(** C1.  The row a close writes to [trades] carries the checked PnL: with
    notional = exit price x quantity x multiplier and expected = net PnL
    (gross minus open and close fee), a supplied pnl that is closer to the
    notional than to the expected value is replaced by the expected value,
    and any other supplied pnl is written unchanged; for entry 100, exit 110,
    quantity 10, multiplier 1 and fee rate 0.0005 a supplied pnl of 1100 is
    written as 98.95.  [closePositionTool] does this for every input.  The
    forced liquidation runs the same check against gross minus the fee its
    polling loop computed, which is the open plus close fee once the order
    was reported finished at a non-zero price and 0 when it never was: a
    short from 100 to 40, closed after 36 hours, whose close order is never
    confirmed is written with the gross 600 although the net PnL is 599.3. *)
Theorem C1_close_pnl_check :
  (forall w symbol l st,
      let notional := ClosePosition.actualExitPrice st * ClosePosition.actualCloseSize st
                      * ClosePosition.quantoMultiplier w in
      let expected := computeNetPnl (ClosePosition.side l) (ClosePosition.entryPrice l)
                        (ClosePosition.actualExitPrice st)
                        (ClosePosition.actualCloseSize st)
                        (ClosePosition.quantoMultiplier w) in
      let supplied := ClosePosition.pnl st in
      let persisted := Trade.pnl (ClosePosition.tradeRow w symbol l st) in
      (Qabs (supplied - notional) < Qabs (supplied - expected) -> persisted = Some expected)
      /\ (~ Qabs (supplied - notional) < Qabs (supplied - expected)
          -> persisted = Some supplied))
  /\ (forall w p st,
         let m := ForcedLiquidation.quantoMultiplier w in
         let row := ForcedLiquidation.tradeRow w p st in
         let qty := ForcedLiquidation.actualQuantity st in
         let notional := Trade.price row * qty * m in
         let expected :=
           computeGrossPnl (RiskEvaluator.side p) (RiskEvaluator.entry_price p)
             (Trade.price row) qty m - ForcedLiquidation.totalFee st in
         let supplied := ForcedLiquidation.pnl st in
         Trade.fee row = Some (ForcedLiquidation.totalFee st)
         /\ (Qabs (supplied - notional) < Qabs (supplied - expected)
             -> Trade.pnl row = Some expected)
         /\ (~ Qabs (supplied - notional) < Qabs (supplied - expected)
             -> Trade.pnl row = Some supplied))
  /\ (forall w p d,
         ~ OrderDetail.price d == 0 ->
         let st := ForcedLiquidation.onFinished w p d in
         Trade.price (ForcedLiquidation.tradeRow w p st) = OrderDetail.price d
         /\ ForcedLiquidation.totalFee st
            = computeTotalFee (RiskEvaluator.entry_price p) (OrderDetail.price d)
                (OrderDetail.filled d) (ForcedLiquidation.quantoMultiplier w))
  /\ (exists v,
         Trade.pnl (ClosePosition.tradeRow scenarioWorld "BTC" scenarioLive
                      (scenarioFill 1100)) = Some v
         /\ v == 98.95
         /\ computeNetPnl long 100 110 10 1 == 98.95
         /\ 110 * 10 * 1 == 1100)
  /\ (exists row v,
         RiskEvaluator.shouldClose
           (RiskEvaluator.evaluate 129600000 (getStrategyParams 10 balanced)
              winningShort 60) = true
         /\ snd (fst (ForcedLiquidation.liquidate silentWorld winningShort [])) = row
         /\ Trade.price row = 40 /\ Trade.quantity row = 10
         /\ Trade.pnl row = Some v /\ v == 600
         /\ Trade.fee row = Some 0
         /\ computeNetPnl short 100 40 10 1 == 599.3
         /\ Qabs (0 - 40 * 10 * 1) < Qabs (0 - computeNetPnl short 100 40 10 1)).
Proof.
  split; [|split; [|split; [|split]]].
  - intros w symbol l st. cbv zeta. rewrite close_row_pnl.
    destruct (correctPnl_spec
                (ClosePosition.actualExitPrice st * ClosePosition.actualCloseSize st
                 * ClosePosition.quantoMultiplier w)
                (computeNetPnl (ClosePosition.side l) (ClosePosition.entryPrice l)
                   (ClosePosition.actualExitPrice st) (ClosePosition.actualCloseSize st)
                   (ClosePosition.quantoMultiplier w))
                (ClosePosition.pnl st)) as [Hlt Hge].
    split; intros H; f_equal; auto.
  - intros w p st. cbv zeta. split; [reflexivity|].
    unfold ForcedLiquidation.tradeRow. cbn [Trade.pnl Trade.price].
    set (finalPrice := Num.orElse _ _).
    destruct (correctPnl_spec
                (finalPrice * ForcedLiquidation.actualQuantity st
                 * ForcedLiquidation.quantoMultiplier w)
                (computeGrossPnl (RiskEvaluator.side p) (RiskEvaluator.entry_price p)
                   finalPrice (ForcedLiquidation.actualQuantity st)
                   (ForcedLiquidation.quantoMultiplier w)
                 - ForcedLiquidation.totalFee st)
                (ForcedLiquidation.pnl st)) as [Hlt Hge].
    split; intros H; f_equal; auto.
  - exact liquidation_fee_finished.
  - eexists. split; [reflexivity|]. repeat split; reflexivity.
  - eexists _, _. split; [reflexivity|]. split; [reflexivity|].
    repeat (split; [reflexivity|]). reflexivity.
Qed.

(** ** Close quantity *)




(** ** Risk evaluator *)

Import RiskEvaluator.



(** The trailing check never changes a verdict: the line is chosen from the
    PnL% it is then compared with. *)
Lemma checkTrailing_id stopLoss pnl v : checkTrailing stopLoss pnl v = v.
Proof.
  unfold checkTrailing. destruct (negb (shouldClose v)); [|reflexivity].
  unfold trailingStopPercent.
  destruct (Num.geb pnl 25) eqn:E25.
  { replace (Num.ltb pnl 15) with false; [reflexivity|].
    symmetry. apply NumFacts.ltb_ge. apply NumFacts.geb_ge in E25.
    eapply Qle_trans; [|exact E25]. discriminate. }
  destruct (Num.geb pnl 15) eqn:E15.
  { replace (Num.ltb pnl 8) with false; [reflexivity|].
    symmetry. apply NumFacts.ltb_ge. apply NumFacts.geb_ge in E15.
    eapply Qle_trans; [|exact E15]. discriminate. }
  destruct (Num.geb pnl 8) eqn:E8.
  { replace (Num.ltb pnl 3) with false; [reflexivity|].
    symmetry. apply NumFacts.ltb_ge. apply NumFacts.geb_ge in E8.
    eapply Qle_trans; [|exact E8]. discriminate. }
  replace (Num.gtb stopLoss stopLoss) with false; [now rewrite andb_false_r|].
  symmetry. apply NumFacts.gtb_le. apply Qle_refl.
Qed.



(** C5.  The trailing line is the step function of the current PnL% (25 and
    above: 15, 15 and above: 8, 8 and above: 3, below: the stop-loss line),
    and the check closes when PnL% is below the line and the line is above
    the stop-loss line.  No PnL% satisfies that condition, so no verdict
    carries the trailing reason.  The long position at 10x that reached 8%
    and fell to 2% is closed by the peak-drawdown check when that check is
    given the peak of 8, and is not closed at all in a full cycle, whose
    sync has reset the stored peak. *)
Theorem C5_trailing_stop_never_fires :
  (forall stopLoss pnl,
      trailingStopPercent stopLoss pnl
      = if Num.geb pnl 25 then 15
        else if Num.geb pnl 15 then 8
        else if Num.geb pnl 8 then 3
        else stopLoss)
  /\ (forall stopLoss pnl,
         ~ (pnl < trailingStopPercent stopLoss pnl
            /\ stopLoss < trailingStopPercent stopLoss pnl))
  /\ (forall now params p peak,
         closeReason (evaluate now params p peak) <> TRAILING_STOP)
  /\ pnlPercent (trailingPos 100.8) == 8
  /\ pnlPercent (trailingPos 100.2) == 2
  /\ evaluate 3600000 (getStrategyParams 10 balanced) (trailingPos 100.8) 8
     = mkVerdict false NoReason
  /\ evaluate 3600000 (getStrategyParams 10 balanced) (trailingPos 100.2) 8
     = mkVerdict true PEAK_DRAWDOWN
  /\ fst (Tick.riskControl cycleWorld [reportedAt 100.2] [peakRow])
     = [("BTC"%string, mkVerdict false NoReason)].
Proof.
  split; [reflexivity|]. split; [|split].
  - intros stopLoss pnl [Hlt Hgt].
    pose proof (checkTrailing_id stopLoss pnl (mkVerdict false NoReason)) as H.
    unfold checkTrailing in H. simpl in H.
    apply NumFacts.ltb_lt in Hlt. apply NumFacts.gtb_gt in Hgt.
    rewrite Hlt, Hgt in H. discriminate.
  - intros now params p peak. unfold evaluate. cbv zeta.
    rewrite checkTrailing_id.
    unfold checkPeakDrawdown, checkStopLoss, checkHolding.
    repeat match goal with
           | |- context [if ?b then _ else _] => destruct b; simpl
           end; discriminate.
  - repeat split; reflexivity.
Qed.

(** ** Peak tracking *)

Lemma select_updatePeak s v rows :
  PositionsTable.selectBySymbol s (PositionsTable.updatePeak s v rows)
  = List.map (PositionRow.with_peak (Some v)) (PositionsTable.selectBySymbol s rows).
Proof.
  unfold PositionsTable.selectBySymbol, PositionsTable.updatePeak.
  induction rows as [|r rows IH]; [reflexivity|].
  cbn [List.map List.filter].
  destruct (PositionsTable.hasSymbol s r) eqn:E.
  - replace (PositionsTable.hasSymbol s (PositionRow.with_peak (Some v) r)) with true
      by (symmetry; exact E).
    cbn [List.map]. now rewrite IH.
  - rewrite E. exact IH.
Qed.

Lemma readPeak_updatePeak s v rows old :
  PositionsTable.readPeak s rows = Some old ->
  PositionsTable.readPeak s (PositionsTable.updatePeak s v rows) = Some v.
Proof.
  unfold PositionsTable.readPeak. rewrite select_updatePeak.
  destruct (PositionsTable.selectBySymbol s rows); [discriminate|reflexivity].
Qed.

(** One check of a position with a row: the stored peak afterwards is the
    larger of the stored peak before and the current PnL%. *)
Lemma trackPeak_ratchet p rows peak :
  PositionsTable.readPeak (symbol p) rows = Some peak ->
  exists v,
    PositionsTable.readPeak (symbol p) (snd (trackPeak p rows)) = Some v
    /\ fst (trackPeak p rows) = v
    /\ peak <= v /\ pnlPercent p <= v /\ (v = peak \/ v = pnlPercent p).
Proof.
  intros Hread. unfold trackPeak. rewrite Hread.
  destruct (Num.gtb (pnlPercent p) peak) eqn:E; cbn [fst snd].
  - exists (pnlPercent p). apply NumFacts.gtb_gt in E.
    rewrite (readPeak_updatePeak _ _ _ _ Hread).
    repeat split; auto using Qlt_le_weak, Qle_refl.
  - exists peak. apply NumFacts.gtb_le in E.
    repeat split; auto using Qle_refl.
Qed.

(** A sync that rewrites the table gives every row the column default as
    its peak, whatever was stored before. *)
Lemma sync_forgets_peak sch w raw rows r :
  raw <> [] ->
  In r (Sync.syncPositionsFromGate sch w raw rows) ->
  PositionRow.peak_pnl_percent r = Schema.peak_pnl_percent sch.
Proof.
  intros Hraw. unfold Sync.syncPositionsFromGate.
  destruct raw as [|p raw]; [contradiction|]. cbn [length Nat.eqb andb].
  rewrite in_map_iff. intros (pos & <- & _).
  unfold Sync.syncRow.
  repeat match goal with
         | |- context [let '(_, _) := ?e in _] => destruct e
         end.
  reflexivity.
Qed.

(** C4.  Within one check the stored peak only grows: it becomes the larger
    of the stored peak and the current PnL%.  The sync that precedes the
    checks of every cycle rewrites the rows without the peak column, so the
    next check starts from the column default: with a default of NULL or 0,
    a position with a stored peak of 8 that is reported at a PnL% of 2 stays
    open with a stored peak of 2. *)
Theorem C4_peak_is_reset_by_sync :
  (forall p rows peak,
      PositionsTable.readPeak (symbol p) rows = Some peak ->
      exists v,
        PositionsTable.readPeak (symbol p) (snd (trackPeak p rows)) = Some v
        /\ peak <= v /\ pnlPercent p <= v /\ (v = peak \/ v = pnlPercent p))
  /\ (forall sch w raw rows r,
         raw <> [] ->
         In r (Sync.syncPositionsFromGate sch w raw rows) ->
         PositionRow.peak_pnl_percent r = Schema.peak_pnl_percent sch)
  /\ PositionsTable.readPeak "BTC" [peakRow] = Some 8
  /\ (forall sch,
         sch = Schema.nulls \/ sch = Schema.zeroPeak ->
         exists rows' v,
           Tick.riskControl (cycleWorldWith sch) [reportedAt 100.2] [peakRow]
           = ([("BTC"%string, mkVerdict false NoReason)], rows')
           /\ PositionsTable.readPeak "BTC" rows' = Some v
           /\ v == 2 /\ v < 8).
Proof.
  split; [|split; [|split]].
  - intros p rows peak H.
    destruct (trackPeak_ratchet p rows peak H) as (v & Hv & _ & Hrest).
    exists v. auto.
  - exact sync_forgets_peak.
  - reflexivity.
  - intros sch [-> | ->]; eexists _, _;
      (split; [vm_compute; reflexivity|]);
      (split; [vm_compute; reflexivity|]); split; reflexivity.
Qed.

(** ** Reconciliation *)

(** The loop's sync leaves the table alone when the exchange reports no
    position and the table has rows, however often that is observed. *)
Lemma loop_sync_keeps_rows sch w rows n :
  rows <> [] ->
  Nat.iter n (Sync.syncPositionsFromGate sch w []) rows = rows.
Proof.
  intros Hrows. induction n as [|n IH]; [reflexivity|].
  rewrite Nat.iter_succ, IH. unfold Sync.syncPositionsFromGate.
  destruct rows; [contradiction|reflexivity].
Qed.

(** C6.  When the exchange reports zero positions while the table has rows,
    the sync of the trading loop deletes nothing, on the first observation
    and on every later one.  The agent's [syncPositions] tool has no such
    guard: on the first such observation it empties the table. *)
Theorem C6_sync_tool_deletes_on_first_zero :
  (forall sch w rows n,
      rows <> [] -> Nat.iter n (Sync.syncPositionsFromGate sch w []) rows = rows)
  /\ (forall sch w rows, Sync.syncPositionsTool sch w [] rows = [])
  /\ length [peakRow; ethRow] = 2%nat
  /\ Sync.syncPositionsFromGate Schema.nulls (Tick.sync cycleWorld) [] [peakRow; ethRow]
     = [peakRow; ethRow]
  /\ Tick.syncStep cycleWorld [] [peakRow; ethRow] = [peakRow; ethRow]
  /\ Sync.syncPositionsTool Schema.nulls (Tick.sync cycleWorld) [] [peakRow; ethRow] = [].
Proof.
  split; [exact loop_sync_keeps_rows|].
  repeat split; reflexivity.
Qed.

(** ** Opening a position *)

(** What an order that was placed tells about the call. *)
Lemma open_placed_inv cfg w i o a :
  OpenPosition.openPositionTool cfg w i = OpenPosition.Placed o a ->
  OpenPosition.invalidLeverage cfg (OpenPosition.leverage i) = false
  /\ AccountGuard.blocksNewPosition (OpenPosition.drawdown cfg)
       (OpenPosition.peakBalance w) (OpenPosition.totalBalance w) = false
  /\ exists q,
      OpenPosition.minNotional cfg w i (OpenPosition.contracts w i) = inr q
      /\ o = OrderParams.mk (OpenPosition.symbol i)
               (OpenPosition.effectiveSide cfg (OpenPosition.side i))
               (Num.abs (match OpenPosition.effectiveSide cfg (OpenPosition.side i) with
                         | long => q
                         | short => - q
                         end))
               (Some (OpenPosition.leverage i)) false.
Proof.
  unfold OpenPosition.openPositionTool. cbv zeta.
  destruct (OpenPosition.invalidAmount _); [discriminate|].
  destruct (OpenPosition.invalidLeverage _ _); [discriminate|].
  destruct (Num.geb _ (OpenPosition.MAX_POSITIONS cfg)); [discriminate|].
  destruct (match List.find _ _ with Some _ => _ | None => _ end); [discriminate|].
  destruct (negb _ || Num.leb _ 0); [discriminate|].
  destruct (AccountGuard.blocksNewPosition _ _ _); [discriminate|].
  destruct (Num.gtb _ _); [discriminate|].
  destruct (OpenPosition.minNotional _ _ _ _) as [why|q]; [discriminate|].
  destruct (Num.ltb _ _); [discriminate|].
  intros H. injection H as <- _. split; [reflexivity|]. split; [reflexivity|].
  exists q. split; reflexivity.
Qed.


(** The leverage check of the tool in terms of the order on numbers. *)
Lemma invalidLeverage_false cfg l :
  OpenPosition.invalidLeverage cfg l = false <-> 1 <= l /\ l <= OpenPosition.MAX_LEVERAGE cfg.
Proof.
  unfold OpenPosition.invalidLeverage, Num.isFinite. simpl.
  rewrite orb_false_iff, NumFacts.ltb_ge, NumFacts.gtb_le. reflexivity.
Qed.

(** ** Account guard *)



(** ** Leverage and side of a placed order *)

(** With a maximum leverage of 10 the balanced range is [6, 9] (and the
    other two are [3, 6] and [9, 10]); a long at leverage 1 passes every
    guard and is placed at leverage 1. *)
Lemma C7_counterexample :
  StrategyParams.leverageMin (getStrategyParams 10 balanced) == 6
  /\ StrategyParams.leverageMax (getStrategyParams 10 balanced) == 9
  /\ StrategyParams.leverageMin (getStrategyParams 10 conservative) == 3
  /\ StrategyParams.leverageMin (getStrategyParams 10 aggressive) == 9
  /\ exists o a,
      OpenPosition.openPositionTool (openConfig false) (calmWorld 1000 None) (longIntent 1)
      = OpenPosition.Placed o a
      /\ OrderParams.leverage o = Some 1.
Proof.
  repeat (split; [reflexivity|]).
  eexists _, _. split; [vm_compute; reflexivity|reflexivity].
Qed.

(** C7 (as the code has it).  The leverage of every order the open-position
    operation places is the requested one and lies within
    [1, MAX_LEVERAGE], the configured maximum; the strategy's own range is
    not consulted.  A request whose leverage is below 1 or above
    MAX_LEVERAGE is rejected. *)
Theorem C7_accepted_leverage_range
  (cfg : OpenPosition.Config) (w : OpenPosition.World) (i : OpenPosition.Intent) :
  (forall o a,
      OpenPosition.openPositionTool cfg w i = OpenPosition.Placed o a ->
      OrderParams.leverage o = Some (OpenPosition.leverage i)
      /\ 1 <= OpenPosition.leverage i
      /\ OpenPosition.leverage i <= OpenPosition.MAX_LEVERAGE cfg)
  /\ (OpenPosition.leverage i < 1
      \/ OpenPosition.MAX_LEVERAGE cfg < OpenPosition.leverage i ->
      exists why, OpenPosition.openPositionTool cfg w i = OpenPosition.Rejected why).
Proof.
  split.
  - intros o a H. apply open_placed_inv in H.
    destruct H as (Hlev & _ & q & _ & ->).
    apply invalidLeverage_false in Hlev. split; [reflexivity|exact Hlev].
  - intros Hout.
    destruct (OpenPosition.openPositionTool cfg w i) as [why|o a] eqn:E.
    + now exists why.
    + apply open_placed_inv in E. destruct E as (Hlev & _).
      apply invalidLeverage_false in Hlev. destruct Hlev as [Hlo Hhi].
      exfalso. destruct Hout as [H|H].
      * exact (Qlt_not_le _ _ H Hlo).
      * exact (Qlt_not_le _ _ H Hhi).
Qed.

(** A long at leverage 7 with a maximum of 10 is placed at leverage 7. *)
Lemma C7_witness :
  exists o a,
    OpenPosition.openPositionTool (openConfig false) (calmWorld 1000 None) (longIntent 7)
    = OpenPosition.Placed o a
    /\ OrderParams.leverage o = Some 7 /\ 1 <= 7 /\ 7 <= 10.
Proof.
  eexists _, _. split; [vm_compute; reflexivity|].
  exact (proj1 (C7_accepted_leverage_range (openConfig false) (calmWorld 1000 None)
                  (longIntent 7)) _ _ eq_refl).
Defined.




(** ** The historical PnL fixer *)

Module PnlFixerFacts.

Import PnlFixer.

(** *** Queries only read the columns a run never writes *)

Lemma key_with_pnl_fee p f r : key (Trade.with_pnl_fee p f r) = key r.
Proof. reflexivity. Qed.

Lemma key_timestamp r r' : key r = key r' -> Trade.timestamp r = Trade.timestamp r'.
Proof. intros H. exact (f_equal Trade.timestamp H). Qed.

Lemma key_id r r' : key r = key r' -> Trade.id r = Trade.id r'.
Proof. intros H. exact (f_equal Trade.id H). Qed.

Lemma key_isClose r r' : key r = key r' -> isClose r = isClose r'.
Proof. intros H. unfold isClose. now rewrite (f_equal Trade.type H : Trade.type r = _). Qed.

Lemma key_isOpenBefore s ts r r' :
  key r = key r' -> isOpenBefore s ts r = isOpenBefore s ts r'.
Proof.
  intros H. unfold isOpenBefore.
  rewrite (f_equal Trade.symbol H : Trade.symbol r = _).
  rewrite (f_equal Trade.type H : Trade.type r = _).
  now rewrite (key_timestamp _ _ H).
Qed.

Section KeyPreserving.

Variable g : Trade.t -> Trade.t.
Hypothesis g_key : forall r, key (g r) = key r.

Lemma insertDesc_map r l :
  insertDesc (g r) (List.map g l) = List.map g (insertDesc r l).
Proof.
  induction l as [|x l IH]; [reflexivity|].
  cbn [List.map insertDesc].
  rewrite (key_timestamp _ _ (g_key x)), (key_timestamp _ _ (g_key r)).
  destruct (String.leb (Trade.timestamp x) (Trade.timestamp r)); [reflexivity|].
  cbn [List.map]. now rewrite IH.
Qed.

Lemma orderBy_map l :
  orderByTimestampDesc (List.map g l) = List.map g (orderByTimestampDesc l).
Proof.
  unfold orderByTimestampDesc.
  induction l as [|x l IH]; [reflexivity|].
  cbn [List.map fold_right]. rewrite IH. apply insertDesc_map.
Qed.

Lemma filter_map_key (P : Trade.t -> bool) l :
  (forall r r', key r = key r' -> P r = P r') ->
  List.filter P (List.map g l) = List.map g (List.filter P l).
Proof.
  intros HP. induction l as [|x l IH]; [reflexivity|].
  cbn [List.map List.filter]. rewrite (HP _ _ (g_key x)).
  destruct (P x); [cbn [List.map]; now rewrite IH | exact IH].
Qed.

Lemma closeTrades_map t : closeTrades (List.map g t) = List.map g (closeTrades t).
Proof.
  unfold closeTrades.
  rewrite (filter_map_key isClose t key_isClose), orderBy_map.
  apply List.firstn_map.
Qed.

Lemma openTradeFor_map s ts t :
  openTradeFor s ts (List.map g t) = option_map g (openTradeFor s ts t).
Proof.
  unfold openTradeFor.
  rewrite (filter_map_key _ t (key_isOpenBefore s ts)), orderBy_map.
  now destruct (orderByTimestampDesc _).
Qed.

End KeyPreserving.

(** *** The selected close trades are rows of the table *)

Lemma In_insertDesc x r l : In x (insertDesc r l) -> x = r \/ In x l.
Proof.
  induction l as [|y l IH]; cbn [insertDesc].
  - intros [<-|[]]. now left.
  - destruct (String.leb _ _).
    + intros [<-|H]; [now left | now right].
    + intros [<-|H]; [right; now left|].
      destruct (IH H) as [->|H']; [now left | right; now right].
Qed.

Lemma In_orderBy x l : In x (orderByTimestampDesc l) -> In x l.
Proof.
  unfold orderByTimestampDesc. induction l as [|y l IH]; [easy|].
  cbn [fold_right]. intros H. apply In_insertDesc in H.
  destruct H as [->|H]; [now left | right; auto].
Qed.

Lemma In_limit (x : Trade.t) n l : In x (firstn n l) -> In x l.
Proof.
  revert l. induction n as [|n IH]; intros [|y l]; cbn; try easy.
  intros [->|H]; [now left | right; auto].
Qed.

Lemma In_closeTrades c t : In c (closeTrades t) -> In c t.
Proof.
  unfold closeTrades. intros H.
  apply In_limit, In_orderBy, List.filter_In in H. tauto.
Qed.

(** *** Rows are identified by their id *)

Lemma unique_by_id (t : list Trade.t) r c :
  List.NoDup (List.map Trade.id t) -> In r t -> In c t -> Trade.id r = Trade.id c -> r = c.
Proof.
  induction t as [|x t IH]; [easy|].
  cbn [List.map]. intros Hnd Hr Hc Hid.
  apply NoDup_cons_iff in Hnd. destruct Hnd as [Hx Hnd].
  destruct Hr as [<-|Hr], Hc as [<-|Hc]; auto.
  - exfalso. apply Hx. rewrite Hid. now apply List.in_map.
  - exfalso. apply Hx. rewrite <- Hid. now apply List.in_map.
Qed.

(** *** One run as a row-by-row rewrite *)

Section Run.

Variable getQuantoMultiplier : string -> Q.

Let recompute := PnlFixer.recompute getQuantoMultiplier.
Let fixOne := PnlFixer.fixOne getQuantoMultiplier.
Let fixRow := PnlFixer.fixRow getQuantoMultiplier.
Let fixSelected := PnlFixer.fixSelected getQuantoMultiplier.

Lemma recompute_key c c' o o' :
  key c = key c' -> key o = key o' -> recompute c o = recompute c' o'.
Proof.
  intros Hc Ho. unfold recompute, PnlFixer.recompute.
  rewrite (f_equal Trade.price Hc : Trade.price c = _).
  rewrite (f_equal Trade.quantity Hc : Trade.quantity c = _).
  rewrite (f_equal Trade.symbol Hc : Trade.symbol c = _).
  rewrite (f_equal Trade.side Hc : Trade.side c = _).
  now rewrite (f_equal Trade.price Ho : Trade.price o = _).
Qed.

(** A row that holds the recomputed values needs no fix. *)
Lemma needsFix_fixed p f r : needsFix (Trade.with_pnl_fee p f r) p f = false.
Proof.
  assert (Hzero : forall x bound, 0 <= bound -> Num.gtb (Num.abs (x - x)) bound = false).
  { intros x bound Hb. apply NumFacts.gtb_le. unfold Num.abs.
    assert (E : x - x == 0) by ring. rewrite E. exact Hb. }
  unfold needsFix. cbn [Trade.with_pnl_fee Trade.pnl Trade.fee parseOrZero].
  rewrite !Hzero by discriminate. reflexivity.
Qed.

Lemma fixRow_cases t r :
  fixRow t r = r
  \/ exists o p f,
      openTradeFor (Trade.symbol r) (Trade.timestamp r) t = Some o
      /\ recompute r o = (p, f) /\ needsFix r p f = true
      /\ fixRow t r = Trade.with_pnl_fee p f r.
Proof.
  unfold fixRow, PnlFixer.fixRow.
  destruct (openTradeFor _ _ t) as [o|]; [|now left].
  fold (recompute r o). destruct (recompute r o) as [p f] eqn:Er.
  destruct (needsFix r p f) eqn:En; [|now left].
  right. now exists o, p, f.
Qed.

Lemma fixRow_key t r : key (fixRow t r) = key r.
Proof.
  destruct (fixRow_cases t r) as [->|(o & p & f & _ & _ & _ & ->)]; reflexivity.
Qed.

Lemma fixSelected_key t sel r : key (fixSelected t sel r) = key r.
Proof.
  unfold fixSelected, PnlFixer.fixSelected.
  destruct (existsb _ sel); [apply fixRow_key | reflexivity].
Qed.

Lemma fixSelected_snoc_same t done c : fixSelected t (done ++ [c]) c = fixRow t c.
Proof.
  unfold fixSelected, PnlFixer.fixSelected.
  rewrite existsb_app. cbn [existsb]. rewrite Z.eqb_refl.
  now rewrite orb_true_r.
Qed.

Lemma fixSelected_snoc_other t done c r :
  Trade.id r <> Trade.id c -> fixSelected t (done ++ [c]) r = fixSelected t done r.
Proof.
  intros Hid. unfold fixSelected, PnlFixer.fixSelected.
  rewrite existsb_app. cbn [existsb].
  replace (Z.eqb (Trade.id c) (Trade.id r)) with false.
  - now rewrite !orb_false_r.
  - symmetry. apply Z.eqb_neq. congruence.
Qed.

Lemma fixSelected_cases t sel r : fixSelected t sel r = r \/ fixSelected t sel r = fixRow t r.
Proof.
  unfold fixSelected, PnlFixer.fixSelected. destruct (existsb _ sel); auto.
Qed.

(** Processing one more selected row extends the rewrite by that row. *)
Lemma fixOne_step t done c :
  List.NoDup (List.map Trade.id t) -> In c t ->
  fixOne (List.map (fixSelected t done) t) c = List.map (fixSelected t (done ++ [c])) t.
Proof.
  intros Hnd Hc.
  assert (Hrest : forall r, In r t -> Trade.id r <> Trade.id c ->
                            fixSelected t done r = fixSelected t (done ++ [c]) r).
  { intros r _ Hid. symmetry. now apply fixSelected_snoc_other. }
  assert (Hsame : forall r, In r t -> Trade.id r = Trade.id c -> r = c).
  { intros r Hr Hid. exact (unique_by_id t r c Hnd Hr Hc Hid). }
  unfold fixOne, PnlFixer.fixOne.
  rewrite (openTradeFor_map _ (fixSelected_key t done)).
  destruct (fixRow_cases t c) as [Hkeep|(o & p & f & Ho & Hr & Hn & Hfix)].
  - (* the row is left as it is *)
    assert (Hnoop :
              match option_map (fixSelected t done)
                      (openTradeFor (Trade.symbol c) (Trade.timestamp c) t) with
              | Some openTrade =>
                  let '(correct, totalFee) :=
                    PnlFixer.recompute getQuantoMultiplier c openTrade in
                  if needsFix c correct totalFee
                  then updateTrade (Trade.id c) correct totalFee
                         (List.map (fixSelected t done) t)
                  else List.map (fixSelected t done) t
              | None => List.map (fixSelected t done) t
              end = List.map (fixSelected t done) t).
    { destruct (openTradeFor _ _ t) as [o|] eqn:Eo; [|reflexivity].
      cbn [option_map]. fold (recompute c (fixSelected t done o)).
      rewrite (recompute_key c c _ o eq_refl (fixSelected_key t done o)).
      revert Hkeep. unfold fixRow, PnlFixer.fixRow. rewrite Eo.
      fold (recompute c o). destruct (recompute c o) as [p f].
      destruct (needsFix c p f) eqn:En; [|reflexivity].
      intros Hkeep. rewrite <- Hkeep in En. rewrite needsFix_fixed in En. discriminate. }
    rewrite Hnoop. apply List.map_ext_in. intros r Hr.
    destruct (Z.eq_dec (Trade.id r) (Trade.id c)) as [Hid|Hid]; [|auto].
    rewrite (Hsame r Hr Hid), fixSelected_snoc_same, Hkeep.
    destruct (fixSelected_cases t done c) as [->| ->]; auto.
  - (* the row is rewritten *)
    rewrite Ho. cbn [option_map]. fold (recompute c (fixSelected t done o)).
    rewrite (recompute_key c c _ o eq_refl (fixSelected_key t done o)), Hr, Hn.
    unfold updateTrade. rewrite List.map_map. apply List.map_ext_in. intros r Hin.
    rewrite (key_id _ _ (fixSelected_key t done r)).
    destruct (Z.eqb (Trade.id r) (Trade.id c)) eqn:Eid.
    + apply Z.eqb_eq in Eid. rewrite (Hsame r Hin Eid), fixSelected_snoc_same, Hfix.
      destruct (fixSelected_cases t done c) as [->| ->]; [reflexivity|].
      now rewrite Hfix.
    + apply Z.eqb_neq in Eid. auto.
Qed.

Lemma run_as_map t rest : forall done,
  List.NoDup (List.map Trade.id t) -> (forall c, In c rest -> In c t) ->
  fold_left fixOne rest (List.map (fixSelected t done) t)
  = List.map (fixSelected t (done ++ rest)) t.
Proof.
  induction rest as [|c rest IH]; intros done Hnd Hin.
  - now rewrite List.app_nil_r.
  - cbn [fold_left]. rewrite fixOne_step by (auto; apply Hin; now left).
    rewrite IH by (auto; intros; apply Hin; now right).
    now rewrite <- List.app_assoc.
Qed.

(** With one id per row, a run rewrites each selected row on its own. *)
Lemma fix_as_map t :
  List.NoDup (List.map Trade.id t) ->
  fixHistoricalPnlRecords getQuantoMultiplier t
  = List.map (fixSelected t (closeTrades t)) t.
Proof.
  intros Hnd.
  pose proof (run_as_map t (closeTrades t) [] Hnd (fun c => In_closeTrades c t)) as H.
  assert (Hid : List.map (fixSelected t []) t = t) by apply List.map_id.
  rewrite Hid in H. exact H.
Qed.

(** A row rewritten by a run is left as it is by a run on the rewritten
    table. *)
Lemma fixRow_settled t sel r :
  fixRow (List.map (fixSelected t sel) t) (fixRow t r) = fixRow t r.
Proof.
  assert (Hopen : forall x,
             openTradeFor (Trade.symbol x) (Trade.timestamp x)
               (List.map (fixSelected t sel) t)
             = option_map (fixSelected t sel)
                 (openTradeFor (Trade.symbol x) (Trade.timestamp x) t)).
  { intros x. apply openTradeFor_map, fixSelected_key. }
  destruct (fixRow_cases t r) as [Hkeep|(o & p & f & Ho & Hr & Hn & Hfix)].
  - rewrite Hkeep. unfold fixRow at 1, PnlFixer.fixRow. rewrite Hopen.
    destruct (openTradeFor _ _ t) as [o|] eqn:Eo; [|reflexivity].
    cbn [option_map]. fold (recompute r (fixSelected t sel o)).
    rewrite (recompute_key r r _ o eq_refl (fixSelected_key t sel o)).
    revert Hkeep. unfold fixRow, PnlFixer.fixRow. rewrite Eo.
    fold (recompute r o). destruct (recompute r o) as [p f].
    destruct (needsFix r p f) eqn:En; [|reflexivity].
    intros Hkeep. rewrite <- Hkeep in En. rewrite needsFix_fixed in En. discriminate.
  - rewrite Hfix. unfold fixRow, PnlFixer.fixRow. rewrite Hopen.
    cbn [Trade.with_pnl_fee Trade.symbol Trade.timestamp]. rewrite Ho.
    cbn [option_map].
    fold (Trade.with_pnl_fee p f r). fold (recompute (Trade.with_pnl_fee p f r) (fixSelected t sel o)).
    rewrite (recompute_key (Trade.with_pnl_fee p f r) r _ o
               (key_with_pnl_fee p f r) (fixSelected_key t sel o)), Hr.
    now rewrite needsFix_fixed.
Qed.

Lemma existsb_id_map (g : Trade.t -> Trade.t) i sel :
  (forall r, key (g r) = key r) ->
  existsb (fun c => Z.eqb (Trade.id c) i) (List.map g sel)
  = existsb (fun c => Z.eqb (Trade.id c) i) sel.
Proof.
  intros Hg. induction sel as [|c sel IH]; [reflexivity|].
  cbn [List.map existsb]. now rewrite IH, (key_id _ _ (Hg c)).
Qed.

End Run.

End PnlFixerFacts.

(** C9.  On a ledger whose rows have distinct ids (the key of [trades]) and
    with the contract multipliers unchanged, running the historical PnL
    fixer on its own result changes nothing: the second run leaves every
    pnl and fee as the first run wrote them. *)
Theorem C9_fixer_is_idempotent
  (getQuantoMultiplier : string -> Q) (t : list Trade.t)
  (Hids : List.NoDup (List.map Trade.id t)) :
  PnlFixer.fixHistoricalPnlRecords getQuantoMultiplier
    (PnlFixer.fixHistoricalPnlRecords getQuantoMultiplier t)
  = PnlFixer.fixHistoricalPnlRecords getQuantoMultiplier t.
Proof.
  rewrite (PnlFixerFacts.fix_as_map getQuantoMultiplier t Hids).
  set (sel := PnlFixer.closeTrades t).
  set (G := PnlFixer.fixSelected getQuantoMultiplier t sel).
  assert (HG : forall r, PnlFixer.key (G r) = PnlFixer.key r)
    by (intros r; apply PnlFixerFacts.fixSelected_key).
  assert (Hids' : List.NoDup (List.map Trade.id (List.map G t))).
  { rewrite List.map_map.
    rewrite (List.map_ext _ Trade.id (fun r => PnlFixerFacts.key_id _ _ (HG r))).
    exact Hids. }
  rewrite (PnlFixerFacts.fix_as_map getQuantoMultiplier _ Hids').
  rewrite (PnlFixerFacts.closeTrades_map G HG). fold sel.
  rewrite List.map_map. apply List.map_ext_in. intros r _.
  unfold PnlFixer.fixSelected at 1.
  rewrite (PnlFixerFacts.existsb_id_map G _ sel HG), (PnlFixerFacts.key_id _ _ (HG r)).
  destruct (existsb _ sel) eqn:E; [|reflexivity].
  assert (HGr : G r = PnlFixer.fixRow getQuantoMultiplier t r).
  { unfold G, PnlFixer.fixSelected. now rewrite E. }
  rewrite HGr. apply PnlFixerFacts.fixRow_settled.
Qed.

(** The ledger whose close was recorded with the notional value: the first
    run rewrites the close to a net PnL of 98.95 and a fee of 1.05, the
    second run returns the same ledger. *)
Lemma C9_witness :
  (exists v f,
      List.map Trade.pnl (PnlFixer.fixHistoricalPnlRecords unitMultiplier aliasedLedger)
      = [None; Some v]
      /\ List.map Trade.fee (PnlFixer.fixHistoricalPnlRecords unitMultiplier aliasedLedger)
         = [Some 0.5; Some f]
      /\ v == 98.95 /\ f == 1.05)
  /\ PnlFixer.fixHistoricalPnlRecords unitMultiplier
       (PnlFixer.fixHistoricalPnlRecords unitMultiplier aliasedLedger)
     = PnlFixer.fixHistoricalPnlRecords unitMultiplier aliasedLedger.
Proof.
  split.
  - eexists _, _. split; [vm_compute; reflexivity|].
    split; [vm_compute; reflexivity|]. split; reflexivity.
  - apply (C9_fixer_is_idempotent unitMultiplier aliasedLedger).
    repeat constructor; cbn; intuition discriminate.
Defined.

(** * Further properties of the modelled code *)

(** ** openPositionTool: what a placed order has passed *)

(** Every branch that returns before [placeOrder], read backwards. *)
Lemma open_placed_guards cfg w i o a :
  OpenPosition.openPositionTool cfg w i = OpenPosition.Placed o a ->
  OpenPosition.invalidAmount (OpenPosition.amountUsdt i) = false
  /\ Num.geb (inject_Z (Z.of_nat (length (OpenPosition.positions w))))
             (OpenPosition.MAX_POSITIONS cfg) = false
  /\ (forall p,
         List.find (fun p => String.eqb (Position.symbol p) (OpenPosition.symbol i))
                   (OpenPosition.positions w) = Some p ->
         Side_eqb (Position.side p)
                  (OpenPosition.effectiveSide cfg (OpenPosition.side i)) = true)
  /\ Num.leb (OpenPosition.availableBalance w) 0 = false
  /\ Num.gtb (OpenPosition.currentTotalExposure w
              + OpenPosition.amountUsdt i * OpenPosition.leverage i)
             (OpenPosition.totalBalance w * OpenPosition.MAX_LEVERAGE cfg) = false
  /\ Num.ltb (OrderParams.quantity o) (OpenPosition.orderSizeMin w) = false
  /\ a = OpenPosition.afterOrder w i (OrderParams.side o) (OrderParams.quantity o).
Proof.
  unfold OpenPosition.openPositionTool. cbv zeta.
  destruct (OpenPosition.invalidAmount _); [discriminate|].
  destruct (OpenPosition.invalidLeverage _ _); [discriminate|].
  destruct (Num.geb _ (OpenPosition.MAX_POSITIONS cfg)); [discriminate|].
  destruct (List.find _ _) as [p|] eqn:Efind.
  - destruct (Side_eqb (Position.side p) _) eqn:Eside; [|discriminate]. cbn [negb].
    destruct (negb _ || Num.leb _ 0) eqn:Eav; [discriminate|].
    destruct (AccountGuard.blocksNewPosition _ _ _); [discriminate|].
    destruct (Num.gtb _ _); [discriminate|].
    destruct (OpenPosition.minNotional _ _ _ _) as [why|q]; [discriminate|].
    destruct (Num.ltb _ _) eqn:Emin; [discriminate|].
    intros H. injection H as <- <-. cbn [OrderParams.quantity OrderParams.side].
    apply orb_false_iff in Eav. destruct Eav as [_ Eav].
    split; [reflexivity|]. split; [reflexivity|].
    split; [intros p' Hp'; injection Hp' as <-; exact Eside|].
    split; [exact Eav|]. split; [reflexivity|]. split; [exact Emin|reflexivity].
  - destruct (negb _ || Num.leb _ 0) eqn:Eav; [discriminate|].
    destruct (AccountGuard.blocksNewPosition _ _ _); [discriminate|].
    destruct (Num.gtb _ _); [discriminate|].
    destruct (OpenPosition.minNotional _ _ _ _) as [why|q]; [discriminate|].
    destruct (Num.ltb _ _) eqn:Emin; [discriminate|].
    intros H. injection H as <- <-. cbn [OrderParams.quantity OrderParams.side].
    apply orb_false_iff in Eav. destruct Eav as [_ Eav].
    split; [reflexivity|]. split; [reflexivity|].
    split; [intros p' Hp'; discriminate|].
    split; [exact Eav|]. split; [reflexivity|]. split; [exact Emin|reflexivity].
Qed.

Lemma Side_eqb_eq a b : Side_eqb a b = true <-> a = b.
Proof. destruct a, b; simpl; split; congruence. Qed.

(** X1.  No dual direction: when the exchange already holds a position in
    the symbol on the other side than the one to be executed, the open
    request is rejected and no order is placed. *)
Theorem X1_open_rejects_opposite_side
  (cfg : OpenPosition.Config) (w : OpenPosition.World) (i : OpenPosition.Intent)
  (p : Position.t)
  (Hheld : List.find (fun p => String.eqb (Position.symbol p) (OpenPosition.symbol i))
                     (OpenPosition.positions w) = Some p)
  (Hother : Position.side p <> OpenPosition.effectiveSide cfg (OpenPosition.side i)) :
  exists why, OpenPosition.openPositionTool cfg w i = OpenPosition.Rejected why.
Proof.
  destruct (OpenPosition.openPositionTool cfg w i) as [why|o a] eqn:E.
  - now exists why.
  - apply open_placed_guards in E. destruct E as (_ & _ & Hside & _).
    specialize (Hside p Hheld). apply Side_eqb_eq in Hside. contradiction.
Qed.

(** A short is held in BTC; a long intent is rejected for that reason. *)
Lemma X1_witness :
  OpenPosition.openPositionTool (openConfig false) hedgedWorld (longIntent 7)
  = OpenPosition.Rejected OpenPosition.OppositeSideHeld.
Proof.
  destruct (X1_open_rejects_opposite_side (openConfig false) hedgedWorld (longIntent 7)
              heldShort eq_refl ltac:(discriminate)) as [why Hwhy].
  rewrite Hwhy. revert Hwhy. vm_compute. intros H. injection H as <-. reflexivity.
Defined.



(** ** openPositionTool: size limits and the follow-up of the order *)







(** ** closePositionTool: the row and the order of a close *)

(** The polling keeps [pnl] equal to the net PnL at the fill it holds. *)
Lemma poll_consistent w l size left : forall call st,
  fillConsistent w l st -> fillConsistent w l (ClosePosition.poll w l size left call st).
Proof.
  induction left as [|left IH]; intros call st Hst; [exact Hst|].
  cbn [ClosePosition.poll].
  destruct (ClosePosition.getOrder w call) as [d|].
  - unfold fillConsistent, ClosePosition.onDetail. cbn. reflexivity.
  - destruct left as [|left'].
    + unfold fillConsistent, ClosePosition.onExhausted, computeNetPnl, computeTotalFee.
      cbn. ring.
    + now apply IH.
Qed.

Lemma fill_consistent w l size : fillConsistent w l (ClosePosition.fill w l size).
Proof.
  unfold ClosePosition.fill. cbv zeta.
  assert (H0 : fillConsistent w l
                 (ClosePosition.mkFill (ClosePosition.currentPrice l) size
                    (Order.status (ClosePosition.order w))
                    (computeNetPnl (ClosePosition.side l) (ClosePosition.entryPrice l)
                       (ClosePosition.currentPrice l) size
                       (ClosePosition.quantoMultiplier w)))).
  { unfold fillConsistent. cbn. reflexivity. }
  destruct (Order.id (ClosePosition.order w)); [|exact H0].
  now apply poll_consistent.
Qed.

(** The check returns one of its last two arguments. *)
Lemma correctPnl_cases notionalValue expectedPnl pnl :
  correctPnl notionalValue expectedPnl pnl = expectedPnl
  \/ correctPnl notionalValue expectedPnl pnl = pnl.
Proof. unfold correctPnl. destruct (Num.ltb _ _); auto. Qed.

(** X5.  Every close that [closePositionTool] carries out writes a close
    trade on the position's side whose fee is the open plus close fee and
    whose pnl is the net PnL (gross minus that fee) at the recorded price and
    quantity, whether the fill was confirmed or estimated. *)
Theorem X5_close_row_holds_net_pnl
  (w : ClosePosition.World) (symbol : string) (percentage : Q)
  (placed : OrderParams.t) (row : Trade.t) (del : bool)
  (Hdone : ClosePosition.closePositionTool w symbol percentage
           = ClosePosition.Success placed row del) :
  exists p,
    ClosePosition.findPosition symbol (ClosePosition.positions w) = Some p
    /\ Trade.side row = Position.side p
    /\ Trade.symbol row = symbol
    /\ Trade.type row = "close"%string
    /\ Trade.fee row
       = Some (computeTotalFee (ClosePosition.entryPrice (ClosePosition.resolve w p))
                 (Trade.price row) (Trade.quantity row) (ClosePosition.quantoMultiplier w))
    /\ exists v,
        Trade.pnl row = Some v
        /\ v == computeNetPnl (Position.side p)
                  (ClosePosition.entryPrice (ClosePosition.resolve w p))
                  (Trade.price row) (Trade.quantity row)
                  (ClosePosition.quantoMultiplier w).
Proof.
  unfold ClosePosition.closePositionTool in Hdone.
  destruct (ClosePosition.invalidPercentage percentage); [discriminate|].
  destruct (ClosePosition.findPosition symbol (ClosePosition.positions w)) as [p|];
    [|discriminate].
  injection Hdone as _ <- _. exists p. split; [reflexivity|].
  set (l := ClosePosition.resolve w p).
  set (st := ClosePosition.fill w l _).
  pose proof (fill_consistent w l
                (ClosePosition.closeSize (ClosePosition.quantity l) percentage)) as Hst.
  fold st in Hst. unfold fillConsistent in Hst.
  repeat (split; [reflexivity|]).
  rewrite close_row_pnl. eexists. split; [reflexivity|].
  cbn [ClosePosition.tradeRow Trade.price Trade.quantity].
  change (Position.side p) with (ClosePosition.side l).
  destruct (correctPnl_cases
              (ClosePosition.actualExitPrice st * ClosePosition.actualCloseSize st
               * ClosePosition.quantoMultiplier w)
              (computeNetPnl (ClosePosition.side l) (ClosePosition.entryPrice l)
                 (ClosePosition.actualExitPrice st) (ClosePosition.actualCloseSize st)
                 (ClosePosition.quantoMultiplier w))
              (ClosePosition.pnl st)) as [-> | ->]; [reflexivity|exact Hst].
Qed.

(** Closing all of a long of 10 from 100, filled at 110: net 98.95. *)
Lemma X5_witness :
  exists placed row del v,
    ClosePosition.closePositionTool filledCloseWorld "BTC" 100
    = ClosePosition.Success placed row del
    /\ Trade.pnl row = Some v /\ v == 98.95.
Proof.
  assert (Hrun : exists placed row del,
             ClosePosition.closePositionTool filledCloseWorld "BTC" 100
             = ClosePosition.Success placed row del
             /\ Trade.price row = 110 /\ Trade.quantity row = 10).
  { eexists _, _, _. split; [vm_compute; reflexivity|]. split; reflexivity. }
  destruct Hrun as (placed & row & del & Hrun & Hprice & Hqty).
  destruct (X5_close_row_holds_net_pnl _ _ _ _ _ _ Hrun)
    as (p & Hp & _ & _ & _ & _ & v & Hv & Hnet).
  exists placed, row, del, v. split; [exact Hrun|]. split; [exact Hv|].
  rewrite Hnet, Hprice, Hqty. injection Hp as <-. reflexivity.
Defined.



(** X7.  [closePositionTool] fails before placing any order in exactly two
    cases: the percentage is not in (0, 100], or the exchange reports no
    position for the symbol (or one of quantity 0).  Slippage, an
    unconfirmed fill or a cancelled order never make it fail. *)
Theorem X7_close_failures (w : ClosePosition.World) (symbol : string) (percentage : Q) :
  (ClosePosition.closePositionTool w symbol percentage
   = ClosePosition.Failure ClosePosition.InvalidPercentage
   <-> ~ (0 < percentage /\ percentage <= 100))
  /\ (ClosePosition.closePositionTool w symbol percentage
      = ClosePosition.Failure ClosePosition.NoPosition
      <-> 0 < percentage /\ percentage <= 100
          /\ ClosePosition.findPosition symbol (ClosePosition.positions w) = None)
  /\ ((exists placed row del,
          ClosePosition.closePositionTool w symbol percentage
          = ClosePosition.Success placed row del)
      <-> 0 < percentage /\ percentage <= 100
          /\ exists p, ClosePosition.findPosition symbol (ClosePosition.positions w) = Some p).
Proof.
  unfold ClosePosition.closePositionTool.
  assert (Hvalid : ClosePosition.invalidPercentage percentage = false
                   <-> 0 < percentage /\ percentage <= 100).
  { unfold ClosePosition.invalidPercentage, Num.isFinite. simpl.
    rewrite orb_false_iff, NumFacts.leb_gt, NumFacts.gtb_le. reflexivity. }
  destruct (ClosePosition.invalidPercentage percentage) eqn:Einv.
  - assert (Hbad : ~ (0 < percentage /\ percentage <= 100)).
    { intros H. apply Hvalid in H. discriminate. }
    split; [tauto|]. split.
    + split; [discriminate|tauto].
    + split; [intros (? & ? & ? & H); discriminate|tauto].
  - assert (Hok : 0 < percentage /\ percentage <= 100) by now apply Hvalid.
    destruct (ClosePosition.findPosition symbol (ClosePosition.positions w)) as [p|].
    + split; [split; [discriminate|tauto]|]. split.
      * split; [discriminate|]. intros (_ & _ & H). discriminate.
      * split; [intros _; repeat split; try tauto; now exists p|].
        intros _. eexists _, _, _. reflexivity.
    + split; [split; [discriminate|tauto]|]. split.
      * split; [tauto|reflexivity].
      * split; [intros (? & ? & ? & H); discriminate|].
        intros (_ & _ & p & H). discriminate.
Qed.

(** ** Risk evaluator: when a position is closed *)



(** X9.  For every strategy and every maximum leverage the stop-loss line
    is negative and does not loosen as leverage grows: a position at a
    higher leverage has a stop-loss line at least as close to zero. *)
Theorem X9_stop_loss_tightens_with_leverage
  (maxLeverage : Q) (strategy : TradingStrategy) (l1 l2 : Q) :
  stopLossPercent (getStrategyParams maxLeverage strategy) l1 < 0
  /\ -3.5 <= stopLossPercent (getStrategyParams maxLeverage strategy) l1
  /\ (l1 <= l2 ->
      stopLossPercent (getStrategyParams maxLeverage strategy) l1
      <= stopLossPercent (getStrategyParams maxLeverage strategy) l2).
Proof.
  set (params := getStrategyParams maxLeverage strategy).
  assert (Hord : StrategyParams.low (StrategyParams.stopLoss params)
                 <= StrategyParams.mid (StrategyParams.stopLoss params)
                 /\ StrategyParams.mid (StrategyParams.stopLoss params)
                    <= StrategyParams.high (StrategyParams.stopLoss params)
                 /\ StrategyParams.high (StrategyParams.stopLoss params) < 0
                 /\ -3.5 <= StrategyParams.low (StrategyParams.stopLoss params)).
  { subst params. destruct strategy; cbn; repeat split; discriminate. }
  destruct Hord as (Hlm & Hmh & Hneg & Hfloor).
  unfold stopLossPercent. cbv zeta.
  set (lhigh := Num.floor (StrategyParams.leverageMin params
                           + (StrategyParams.leverageMax params
                              - StrategyParams.leverageMin params) * 0.75)).
  set (lmid := Num.floor ((StrategyParams.leverageMin params
                           + StrategyParams.leverageMax params) / 2)).
  assert (Hcases : forall l,
             (if Num.geb l lhigh
              then StrategyParams.high (StrategyParams.stopLoss params)
              else if Num.geb l lmid
                   then StrategyParams.mid (StrategyParams.stopLoss params)
                   else StrategyParams.low (StrategyParams.stopLoss params))
             <= StrategyParams.high (StrategyParams.stopLoss params)
             /\ StrategyParams.low (StrategyParams.stopLoss params)
                <= (if Num.geb l lhigh
                    then StrategyParams.high (StrategyParams.stopLoss params)
                    else if Num.geb l lmid
                         then StrategyParams.mid (StrategyParams.stopLoss params)
                         else StrategyParams.low (StrategyParams.stopLoss params))).
  { intros l. destruct (Num.geb l lhigh), (Num.geb l lmid); split;
      eauto using Qle_refl, Qle_trans. }
  split; [eapply Qle_lt_trans; [apply (Hcases l1)|exact Hneg]|].
  split; [eapply Qle_trans; [exact Hfloor|apply (Hcases l1)]|].
  intros Hl.
  destruct (Num.geb l2 lhigh) eqn:E2h; [apply (Hcases l1)|].
  apply NumFacts.geb_lt in E2h.
  assert (E1h : Num.geb l1 lhigh = false).
  { apply NumFacts.geb_lt. eapply Qle_lt_trans; eauto. }
  rewrite E1h.
  destruct (Num.geb l2 lmid) eqn:E2m.
  - destruct (Num.geb l1 lmid); [apply Qle_refl|exact Hlm].
  - apply NumFacts.geb_lt in E2m.
    assert (E1m : Num.geb l1 lmid = false).
    { apply NumFacts.geb_lt. eapply Qle_lt_trans; eauto. }
    rewrite E1m. apply Qle_refl.
Qed.

(** X10.  With a positive entry price and a positive leverage, a long shows
    a positive PnL% exactly when the current price is above the entry price
    and a short exactly when it is below; the PnL% of a short is the negated
    PnL% of the long at the same prices and leverage.  With a non-positive
    entry price the PnL% is 0. *)
Theorem X10_pnl_percent_sign
  (symbol : string) (quantity entry current leverage : Q) (opened : Z) :
  let longPos := mkPos symbol long quantity entry current leverage opened in
  let shortPos := mkPos symbol short quantity entry current leverage opened in
  pnlPercent shortPos == - pnlPercent longPos
  /\ (entry <= 0 -> pnlPercent longPos == 0)
  /\ (0 < entry -> 0 < leverage ->
      (0 < pnlPercent longPos <-> entry < current)
      /\ (0 < pnlPercent shortPos <-> current < entry)).
Proof.
  cbv zeta. unfold pnlPercent, priceChangePercent. cbn.
  destruct (Num.gtb entry 0) eqn:E.
  - apply NumFacts.gtb_gt in E.
    assert (Hne : ~ entry == 0).
    { intros Hz. rewrite Hz in E. discriminate. }
    split; [field; exact Hne|]. split.
    { intros H. exfalso. exact (Qlt_not_le _ _ E H). }
    intros _ Hlev.
    assert (Hk : 0 < 100 * leverage / entry).
    { apply Qlt_shift_div_l; [exact E|]. rewrite Qmult_0_l.
      apply Qmult_lt_0_compat; [reflexivity|exact Hlev]. }
    assert (Hlong : (current - entry) / entry * 100 * 1 * leverage
                    == (current - entry) * (100 * leverage / entry))
      by (field; exact Hne).
    assert (Hshort : (current - entry) / entry * 100 * -1 * leverage
                     == (entry - current) * (100 * leverage / entry))
      by (field; exact Hne).
    rewrite Hlong, Hshort.
    assert (Hsign : forall d, 0 < d * (100 * leverage / entry) <-> 0 < d).
    { intros d. split; intros H.
      - rewrite <- (Qmult_0_l (100 * leverage / entry)) in H.
        now apply Qmult_lt_r in H.
      - rewrite <- (Qmult_0_l (100 * leverage / entry)).
        now apply Qmult_lt_r. }
    rewrite !Hsign. split; split; intros H.
    + apply (Qplus_lt_l _ _ (- entry)). now rewrite Qplus_opp_r.
    + apply (Qplus_lt_l _ _ (- entry)) in H. now rewrite Qplus_opp_r in H.
    + apply (Qplus_lt_l _ _ (- current)). now rewrite Qplus_opp_r.
    + apply (Qplus_lt_l _ _ (- current)) in H. now rewrite Qplus_opp_r in H.
  - apply NumFacts.gtb_le in E.
    split; [ring|]. split; [intros _; ring|].
    intros H. exfalso. exact (Qlt_not_le _ _ H E).
Qed.

(** ** Reconciliation: what the sync of the loop keeps and writes *)

Lemma dbPositionsMap_snoc rows r :
  Sync.dbPositionsMap (rows ++ [r])
  = <[PositionRow.symbol r := r]> (Sync.dbPositionsMap rows).
Proof. unfold Sync.dbPositionsMap. now rewrite fold_left_app. Qed.

Lemma dbPositionsMap_absent rows s :
  (forall r, In r rows -> PositionRow.symbol r <> s) ->
  Sync.dbPositionsMap rows !! s = None.
Proof.
  induction rows as [|r rows IH] using rev_ind; intros H; [reflexivity|].
  rewrite dbPositionsMap_snoc, lookup_insert_ne.
  - apply IH. intros r' Hr'. apply H, in_or_app. now left.
  - apply H, in_or_app. right. now left.
Qed.

Lemma dbPositionsMap_unique rows r :
  List.NoDup (List.map PositionRow.symbol rows) ->
  In r rows ->
  Sync.dbPositionsMap rows !! PositionRow.symbol r = Some r.
Proof.
  induction rows as [|x rows IH] using rev_ind; intros Hnd Hin; [contradiction|].
  rewrite dbPositionsMap_snoc.
  rewrite List.map_app in Hnd. cbn [List.map] in Hnd.
  apply in_app_or in Hin. destruct Hin as [Hin|[->|[]]].
  - rewrite lookup_insert_ne.
    + apply IH; [|exact Hin]. eapply List.NoDup_app_remove_r. exact Hnd.
    + intros Heq. apply List.NoDup_remove_2 in Hnd. apply Hnd.
      rewrite List.app_nil_r, Heq. now apply List.in_map.
  - apply lookup_insert_eq.
Qed.

Lemma syncRow_symbol sch w m p :
  PositionRow.symbol (Sync.syncRow sch w m p) = Position.symbol p.
Proof.
  unfold Sync.syncRow.
  repeat match goal with
         | |- context [let '(_, _) := ?e in _] => destruct e
         end.
  reflexivity.
Qed.

Lemma syncRow_echo sch w m p :
  PositionRow.quantity (Sync.syncRow sch w m p) = Position.quantity p
  /\ PositionRow.side (Sync.syncRow sch w m p) = Position.side p
  /\ PositionRow.leverage (Sync.syncRow sch w m p) = Position.leverage p
  /\ PositionRow.unrealized_pnl (Sync.syncRow sch w m p) = Position.unrealizedPnl p
  /\ PositionRow.peak_pnl_percent (Sync.syncRow sch w m p) = Schema.peak_pnl_percent sch.
Proof.
  unfold Sync.syncRow.
  repeat match goal with
         | |- context [let '(_, _) := ?e in _] => destruct e
         end.
  repeat split.
Qed.

Lemma syncRow_metadata sch w m p :
  match m !! Position.symbol p with
  | Some r =>
      PositionRow.opened_at (Sync.syncRow sch w m p) = PositionRow.opened_at r
      /\ (PositionRow.entry_order_id r <> EmptyString ->
          PositionRow.entry_order_id (Sync.syncRow sch w m p)
          = PositionRow.entry_order_id r)
      /\ PositionRow.stop_loss (Sync.syncRow sch w m p)
         = Sync.truthyQ (PositionRow.stop_loss r)
      /\ PositionRow.profit_target (Sync.syncRow sch w m p)
         = Sync.truthyQ (PositionRow.profit_target r)
      /\ PositionRow.sl_order_id (Sync.syncRow sch w m p)
         = Sync.truthyS (PositionRow.sl_order_id r)
      /\ PositionRow.tp_order_id (Sync.syncRow sch w m p)
         = Sync.truthyS (PositionRow.tp_order_id r)
  | None =>
      PositionRow.opened_at (Sync.syncRow sch w m p) = Sync.nowMillis w
      /\ PositionRow.entry_order_id (Sync.syncRow sch w m p)
         = ("synced-" ++ Position.symbol p ++ "-" ++ Sync.nowText w)%string
      /\ PositionRow.stop_loss (Sync.syncRow sch w m p) = None
      /\ PositionRow.profit_target (Sync.syncRow sch w m p) = None
      /\ PositionRow.sl_order_id (Sync.syncRow sch w m p) = None
      /\ PositionRow.tp_order_id (Sync.syncRow sch w m p) = None
  end.
Proof.
  unfold Sync.syncRow.
  repeat match goal with
         | |- context [let '(_, _) := ?e in _] => destruct e
         end.
  cbn. destruct (m !! Position.symbol p) as [r|]; cbn.
  - repeat split. intros Hne.
    destruct (PositionRow.entry_order_id r); [contradiction|reflexivity].
  - repeat split.
Qed.

Lemma sync_once sch w raw rows :
  Sync.syncPositionsFromGate sch w raw rows
  = match raw with
    | [] => rows
    | _ :: _ => List.map (Sync.syncRow sch w (Sync.dbPositionsMap rows)) raw
    end.
Proof.
  unfold Sync.syncPositionsFromGate.
  destruct raw as [|p raw]; [|reflexivity].
  destruct rows; reflexivity.
Qed.

Lemma syncStep_once w raw rows :
  Tick.syncStep w raw rows
  = Sync.syncPositionsFromGate (Tick.schema w) (Tick.sync w) raw rows.
Proof.
  unfold Tick.syncStep. cbv zeta. rewrite !sync_once.
  destruct raw as [|p raw].
  - now destruct (Nat.eqb _ _).
  - rewrite List.length_map, Nat.eqb_refl. reflexivity.
Qed.

(** X11.  Step 3 of a cycle always leaves the table that one call of the
    sync leaves: the second call made on a count mismatch changes nothing.
    With at least one reported position the table then holds exactly one
    row per reported position, in the reported order and under its symbol;
    with none reported the table is left as it was. *)
Theorem X11_sync_step_is_one_sync
  (w : Tick.World) (raw : list Position.t) (rows : list PositionRow.t) :
  Tick.syncStep w raw rows
  = Sync.syncPositionsFromGate (Tick.schema w) (Tick.sync w) raw rows
  /\ (raw <> [] ->
      List.map PositionRow.symbol (Tick.syncStep w raw rows)
      = List.map Position.symbol raw)
  /\ (raw = [] -> Tick.syncStep w raw rows = rows).
Proof.
  split; [apply syncStep_once|]. rewrite syncStep_once, sync_once. split.
  - intros Hraw. destruct raw as [|p raw]; [contradiction|].
    rewrite List.map_map. apply List.map_ext. intros a. apply syncRow_symbol.
  - intros ->. reflexivity.
Qed.

(** X12.  When the table has one row per symbol and the exchange reports a
    position whose symbol has a row, the row the sync writes for it takes
    quantity, side and leverage from the exchange and keeps the stored
    opening time, the stored entry order id when it is not empty, and the
    stored stop-loss, take-profit and order-id columns with empty values
    turned into NULL. *)
Theorem X12_sync_keeps_metadata
  (sch : Schema.t) (w : Sync.World) (raw : list Position.t)
  (rows : list PositionRow.t) (p : Position.t) (r : PositionRow.t)
  (Hunique : List.NoDup (List.map PositionRow.symbol rows))
  (Hrow : In r rows)
  (Hreported : In p raw)
  (Hsymbol : Position.symbol p = PositionRow.symbol r) :
  exists r',
    In r' (Sync.syncPositionsFromGate sch w raw rows)
    /\ PositionRow.symbol r' = Position.symbol p
    /\ PositionRow.quantity r' = Position.quantity p
    /\ PositionRow.side r' = Position.side p
    /\ PositionRow.leverage r' = Position.leverage p
    /\ PositionRow.opened_at r' = PositionRow.opened_at r
    /\ (PositionRow.entry_order_id r <> EmptyString ->
        PositionRow.entry_order_id r' = PositionRow.entry_order_id r)
    /\ PositionRow.stop_loss r' = Sync.truthyQ (PositionRow.stop_loss r)
    /\ PositionRow.profit_target r' = Sync.truthyQ (PositionRow.profit_target r)
    /\ PositionRow.sl_order_id r' = Sync.truthyS (PositionRow.sl_order_id r)
    /\ PositionRow.tp_order_id r' = Sync.truthyS (PositionRow.tp_order_id r).
Proof.
  exists (Sync.syncRow sch w (Sync.dbPositionsMap rows) p).
  split.
  { rewrite sync_once. destruct raw as [|q raw]; [contradiction|].
    now apply List.in_map. }
  split; [apply syncRow_symbol|].
  destruct (syncRow_echo sch w (Sync.dbPositionsMap rows) p) as (Hq & Hs & Hl & _).
  pose proof (syncRow_metadata sch w (Sync.dbPositionsMap rows) p) as Hm.
  rewrite Hsymbol, (dbPositionsMap_unique rows r Hunique Hrow) in Hm.
  tauto.
Qed.

Lemma X12_witness :
  exists r',
    In r' (Sync.syncPositionsFromGate Schema.nulls (Tick.sync cycleWorld)
             [reportedAt 100.2] [peakRow; ethRow])
    /\ PositionRow.symbol r' = Position.symbol (reportedAt 100.2)
    /\ PositionRow.quantity r' = Position.quantity (reportedAt 100.2)
    /\ PositionRow.side r' = Position.side (reportedAt 100.2)
    /\ PositionRow.leverage r' = Position.leverage (reportedAt 100.2)
    /\ PositionRow.opened_at r' = PositionRow.opened_at peakRow
    /\ (PositionRow.entry_order_id peakRow <> EmptyString ->
        PositionRow.entry_order_id r' = PositionRow.entry_order_id peakRow)
    /\ PositionRow.stop_loss r' = Sync.truthyQ (PositionRow.stop_loss peakRow)
    /\ PositionRow.profit_target r' = Sync.truthyQ (PositionRow.profit_target peakRow)
    /\ PositionRow.sl_order_id r' = Sync.truthyS (PositionRow.sl_order_id peakRow)
    /\ PositionRow.tp_order_id r' = Sync.truthyS (PositionRow.tp_order_id peakRow).
Proof.
  apply (X12_sync_keeps_metadata Schema.nulls (Tick.sync cycleWorld)
           [reportedAt 100.2] [peakRow; ethRow] (reportedAt 100.2) peakRow).
  - cbn. repeat constructor; cbn; intuition discriminate.
  - now left.
  - now left.
  - reflexivity.
Defined.

(** X13.  A position whose symbol has no row in the table gets a new row
    opened at the time of the sync, with the placeholder entry order id
    "synced-<symbol>-<timestamp>" and no stop-loss or take-profit data. *)
Theorem X13_sync_new_position_row
  (sch : Schema.t) (w : Sync.World) (raw : list Position.t)
  (rows : list PositionRow.t) (p : Position.t)
  (Hreported : In p raw)
  (Hnew : forall r, In r rows -> PositionRow.symbol r <> Position.symbol p) :
  exists r',
    In r' (Sync.syncPositionsFromGate sch w raw rows)
    /\ PositionRow.symbol r' = Position.symbol p
    /\ PositionRow.quantity r' = Position.quantity p
    /\ PositionRow.opened_at r' = Sync.nowMillis w
    /\ PositionRow.entry_order_id r'
       = ("synced-" ++ Position.symbol p ++ "-" ++ Sync.nowText w)%string
    /\ PositionRow.stop_loss r' = None
    /\ PositionRow.profit_target r' = None
    /\ PositionRow.sl_order_id r' = None
    /\ PositionRow.tp_order_id r' = None.
Proof.
  exists (Sync.syncRow sch w (Sync.dbPositionsMap rows) p).
  split.
  { rewrite sync_once. destruct raw as [|q raw]; [contradiction|].
    now apply List.in_map. }
  split; [apply syncRow_symbol|].
  destruct (syncRow_echo sch w (Sync.dbPositionsMap rows) p) as (Hq & _).
  pose proof (syncRow_metadata sch w (Sync.dbPositionsMap rows) p) as Hm.
  rewrite (dbPositionsMap_absent rows _ Hnew) in Hm.
  tauto.
Qed.

Lemma X13_witness :
  exists r',
    In r' (Sync.syncPositionsFromGate Schema.nulls (Tick.sync cycleWorld)
             [reportedAt 100.2] [ethRow])
    /\ PositionRow.symbol r' = Position.symbol (reportedAt 100.2)
    /\ PositionRow.quantity r' = Position.quantity (reportedAt 100.2)
    /\ PositionRow.opened_at r' = Sync.nowMillis (Tick.sync cycleWorld)
    /\ PositionRow.entry_order_id r'
       = ("synced-" ++ Position.symbol (reportedAt 100.2) ++ "-"
          ++ Sync.nowText (Tick.sync cycleWorld))%string
    /\ PositionRow.stop_loss r' = None
    /\ PositionRow.profit_target r' = None
    /\ PositionRow.sl_order_id r' = None
    /\ PositionRow.tp_order_id r' = None.
Proof.
  apply (X13_sync_new_position_row Schema.nulls (Tick.sync cycleWorld)
           [reportedAt 100.2] [ethRow] (reportedAt 100.2)).
  - now left.
  - intros r [<-|[]]. discriminate.
Defined.

Lemma truthyQ_idem x : Sync.truthyQ (Sync.truthyQ x) = Sync.truthyQ x.
Proof.
  destruct x as [v|]; [|reflexivity]. cbn.
  destruct (Num.eqb v 0) eqn:E; [reflexivity|]. cbn. now rewrite E.
Qed.

Lemma truthyS_idem x : Sync.truthyS (Sync.truthyS x) = Sync.truthyS x.
Proof. destruct x as [[|c s]|]; reflexivity. Qed.

Lemma syncRow_again sch w m m' p :
  m' !! Position.symbol p = Some (Sync.syncRow sch w m p) ->
  Sync.syncRow sch w m' p = Sync.syncRow sch w m p.
Proof.
  intros H. unfold Sync.syncRow at 1. rewrite H. clear H.
  unfold Sync.syncRow.
  repeat match goal with
         | |- context [let '(_, _) := ?e in _] => destruct e
         end.
  cbn. f_equal.
  - destruct (m !! Position.symbol p); cbn; [apply truthyQ_idem|reflexivity].
  - destruct (m !! Position.symbol p); cbn; [apply truthyQ_idem|reflexivity].
  - destruct (m !! Position.symbol p); cbn; [apply truthyS_idem|reflexivity].
  - destruct (m !! Position.symbol p); cbn; [apply truthyS_idem|reflexivity].
  - destruct (m !! Position.symbol p) as [r|]; [|reflexivity].
    destruct (PositionRow.entry_order_id r); reflexivity.
Qed.

(** X14.  When the exchange reports at most one position per symbol,
    running the sync a second time on the same exchange data leaves the
    table of the first run unchanged. *)
Theorem X14_sync_is_idempotent
  (sch : Schema.t) (w : Sync.World) (raw : list Position.t)
  (rows : list PositionRow.t)
  (Hdistinct : List.NoDup (List.map Position.symbol raw)) :
  Sync.syncPositionsFromGate sch w raw
    (Sync.syncPositionsFromGate sch w raw rows)
  = Sync.syncPositionsFromGate sch w raw rows.
Proof.
  rewrite !sync_once. destruct raw as [|q raw]; [reflexivity|].
  set (l := q :: raw) in *. set (m := Sync.dbPositionsMap rows).
  apply List.map_ext_in. intros p Hp. apply syncRow_again.
  rewrite <- (syncRow_symbol sch w m p).
  apply dbPositionsMap_unique; [|now apply List.in_map].
  rewrite List.map_map.
  erewrite List.map_ext; [exact Hdistinct|].
  intros a. apply syncRow_symbol.
Qed.

Lemma X14_witness :
  Sync.syncPositionsFromGate Schema.nulls (Tick.sync cycleWorld) [reportedAt 100.2]
    (Sync.syncPositionsFromGate Schema.nulls (Tick.sync cycleWorld)
       [reportedAt 100.2] [peakRow; ethRow])
  = Sync.syncPositionsFromGate Schema.nulls (Tick.sync cycleWorld)
      [reportedAt 100.2] [peakRow; ethRow].
Proof.
  apply (X14_sync_is_idempotent Schema.nulls (Tick.sync cycleWorld)
           [reportedAt 100.2] [peakRow; ethRow]).
  cbn. repeat constructor; cbn; intuition discriminate.
Defined.

(** ** A whole cycle: which checks can close a position *)








(** ** Forced liquidation: polling and the recorded row *)

Lemma liquidation_poll_unfinished w p left : forall retry st,
  (forall k, (retry <= k < retry + left)%nat ->
             unfinished (ForcedLiquidation.getOrder w k)) ->
  ForcedLiquidation.poll w p left retry st = st.
Proof.
  induction left as [|left IH]; intros retry st H; [reflexivity|].
  cbn [ForcedLiquidation.poll].
  pose proof (H retry ltac:(lia)) as H0. unfold unfinished in H0.
  destruct (ForcedLiquidation.getOrder w retry) as [d|].
  - rewrite H0. apply IH. intros k Hk. apply H. lia.
  - apply IH. intros k Hk. apply H. lia.
Qed.

Lemma liquidation_poll_finished w p d n left : forall retry st,
  (retry <= n < retry + left)%nat ->
  ForcedLiquidation.getOrder w n = Some d ->
  String.eqb (OrderDetail.status d) "finished" = true ->
  (forall k, (retry <= k < n)%nat -> unfinished (ForcedLiquidation.getOrder w k)) ->
  ForcedLiquidation.poll w p left retry st = ForcedLiquidation.onFinished w p d.
Proof.
  induction left as [|left IH]; intros retry st Hn Hd Hfin Hbefore; [lia|].
  cbn [ForcedLiquidation.poll].
  destruct (Nat.eq_dec retry n) as [->|Hne].
  - now rewrite Hd, Hfin.
  - pose proof (Hbefore retry ltac:(lia)) as H0. unfold unfinished in H0.
    destruct (ForcedLiquidation.getOrder w retry) as [d0|].
    + rewrite H0. apply IH; auto; [lia|]. intros k Hk. apply Hbefore. lia.
    + apply IH; auto; [lia|]. intros k Hk. apply Hbefore. lia.
Qed.

(** X16.  A forced liquidation polls the close order five times.  When none
    of the five calls reports it finished, the close trade is written as
    "pending" at the position's current price and full quantity with fee 0
    and a pnl that is 0 or the gross PnL.  When the first finished report
    among the five has a non-zero price, the trade is written as "filled"
    at that price and filled quantity, with the open plus close fee and the
    net PnL.  In both cases the rows of the position's symbol are deleted
    and every other row is kept. *)
Theorem X16_forced_liquidation_outcomes
  (w : ForcedLiquidation.World) (p : RiskEvaluator.Pos) (rows : list PositionRow.t) :
  let row := snd (fst (ForcedLiquidation.liquidate w p rows)) in
  let table := snd (ForcedLiquidation.liquidate w p rows) in
  let m := ForcedLiquidation.quantoMultiplier w in
  (forall r, In r table
             <-> In r rows /\ PositionRow.symbol r <> RiskEvaluator.symbol p)
  /\ ((forall k, (k < 5)%nat -> unfinished (ForcedLiquidation.getOrder w k)) ->
      Trade.status row = "pending"%string
      /\ Trade.price row = RiskEvaluator.current_price p
      /\ Trade.quantity row = Qabs (RiskEvaluator.quantity p)
      /\ Trade.fee row = Some 0
      /\ (Trade.pnl row = Some 0
          \/ Trade.pnl row
             = Some (computeGrossPnl (RiskEvaluator.side p) (RiskEvaluator.entry_price p)
                       (RiskEvaluator.current_price p)
                       (Qabs (RiskEvaluator.quantity p)) m - 0)))
  /\ (forall n d,
         (n < 5)%nat ->
         ForcedLiquidation.getOrder w n = Some d ->
         OrderDetail.status d = "finished"%string ->
         (forall k, (k < n)%nat -> unfinished (ForcedLiquidation.getOrder w k)) ->
         ~ OrderDetail.price d == 0 ->
         Trade.status row = "filled"%string
         /\ Trade.price row = OrderDetail.price d
         /\ Trade.quantity row = OrderDetail.filled d
         /\ Trade.fee row
            = Some (computeTotalFee (RiskEvaluator.entry_price p) (OrderDetail.price d)
                      (OrderDetail.filled d) m)
         /\ Trade.pnl row
            = Some (computeNetPnl (RiskEvaluator.side p) (RiskEvaluator.entry_price p)
                      (OrderDetail.price d) (OrderDetail.filled d) m)).
Proof.
  cbv zeta. unfold ForcedLiquidation.liquidate. cbn [fst snd]. split; [|split].
  - intros r. unfold PositionsTable.deleteBySymbol. rewrite List.filter_In.
    unfold PositionsTable.hasSymbol.
    destruct (String.eqb_spec (PositionRow.symbol r) (RiskEvaluator.symbol p));
      cbn; intuition congruence.
  - intros Hnone.
    rewrite liquidation_poll_unfinished by (intros k Hk; apply Hnone; lia).
    unfold ForcedLiquidation.tradeRow, ForcedLiquidation.initial. cbn.
    repeat split.
    match goal with
    | |- context [correctPnl ?a ?b ?c] =>
        destruct (correctPnl_cases a b c) as [E|E]; rewrite E
    end; [right|left]; reflexivity.
  - intros n d Hn Hd Hfin Hbefore Hprice.
    rewrite (liquidation_poll_finished w p d n 5 0);
      [| lia | exact Hd | rewrite Hfin; reflexivity
       | intros k Hk; apply Hbefore; lia].
    unfold ForcedLiquidation.tradeRow, ForcedLiquidation.onFinished. cbn.
    assert (Hor : Num.orElse (OrderDetail.price d) (RiskEvaluator.current_price p)
                  = OrderDetail.price d).
    { unfold Num.orElse, Num.eqb.
      destruct (Qeq_bool (OrderDetail.price d) 0) eqn:E; [|reflexivity].
      apply Qeq_bool_iff in E. contradiction. }
    rewrite Hor. repeat split.
    f_equal. apply correctPnl_expected.
Qed.

(** ** getStrategyParams: the leverage ranges *)

Lemma max_lub a b c : a <= c -> b <= c -> Num.max a b <= c.
Proof. intros Ha Hb. unfold Num.max. now destruct (Num.leb a b). Qed.

Lemma max_ge_l a b : a <= Num.max a b.
Proof.
  unfold Num.max. destruct (Num.leb a b) eqn:E; [|apply Qle_refl].
  now apply NumFacts.leb_le.
Qed.

Lemma max_ge_r a b : b <= Num.max a b.
Proof.
  unfold Num.max. destruct (Num.leb a b) eqn:E; [apply Qle_refl|].
  apply NumFacts.leb_gt in E. now apply Qlt_le_weak.
Qed.

Lemma max_mono a b c d : a <= c -> b <= d -> Num.max a b <= Num.max c d.
Proof.
  intros Hac Hbd. apply max_lub.
  - eapply Qle_trans; [exact Hac|apply max_ge_l].
  - eapply Qle_trans; [exact Hbd|apply max_ge_r].
Qed.

Lemma ceil_mono x y : x <= y -> Num.ceil x <= Num.ceil y.
Proof.
  intros H. unfold Num.ceil. rewrite <- Zle_Qle. now apply Qceiling_resp_le.
Qed.

Lemma ceil_below_integer x (z : Z) : x <= inject_Z z -> Num.ceil x <= inject_Z z.
Proof.
  intros H. unfold Num.ceil. rewrite <- Zle_Qle.
  rewrite <- (Qceiling_Z z). now apply Qceiling_resp_le.
Qed.

Lemma scale_mono (m a b : Q) : 0 <= m -> a <= b -> m * a <= m * b.
Proof.
  intros Hm Hab. rewrite (Qmult_comm m a), (Qmult_comm m b).
  now apply Qmult_le_compat_r.
Qed.

(** X17.  The leverage ranges of the three strategies follow one another:
    the conservative range ends where the balanced one starts and the
    balanced range ends where the aggressive one starts.  For a
    non-negative maximum leverage the conservative and the balanced range
    are never empty.  For an integer maximum leverage of at least 3 every
    strategy's range lies within [1, maximum]; below 3 the aggressive range
    is empty (its lower end is above its upper end). *)
Theorem X17_strategy_leverage_ranges :
  (forall m,
      StrategyParams.leverageMax (getStrategyParams m conservative)
      = StrategyParams.leverageMin (getStrategyParams m balanced)
      /\ StrategyParams.leverageMax (getStrategyParams m balanced)
         = StrategyParams.leverageMin (getStrategyParams m aggressive))
  /\ (forall m, 0 <= m ->
        StrategyParams.leverageMin (getStrategyParams m conservative)
        <= StrategyParams.leverageMax (getStrategyParams m conservative)
        /\ StrategyParams.leverageMin (getStrategyParams m balanced)
           <= StrategyParams.leverageMax (getStrategyParams m balanced))
  /\ (forall (z : Z) s, (3 <= z)%Z ->
        1 <= StrategyParams.leverageMin (getStrategyParams (inject_Z z) s)
        /\ StrategyParams.leverageMin (getStrategyParams (inject_Z z) s)
           <= StrategyParams.leverageMax (getStrategyParams (inject_Z z) s)
        /\ StrategyParams.leverageMax (getStrategyParams (inject_Z z) s)
           <= inject_Z z)
  /\ (forall m, m < 3 ->
        StrategyParams.leverageMax (getStrategyParams m aggressive)
        < StrategyParams.leverageMin (getStrategyParams m aggressive)).
Proof.
  split; [intros m; split; reflexivity|].
  assert (Hcb : forall m, 0 <= m ->
            Num.max 1 (Num.ceil (m * 0.3)) <= Num.max 2 (Num.ceil (m * 0.6))
            /\ Num.max 2 (Num.ceil (m * 0.6)) <= Num.max 3 (Num.ceil (m * 0.85))).
  { intros m Hm. split; apply max_mono; try discriminate;
      apply ceil_mono, scale_mono; auto; discriminate. }
  split; [intros m Hm; cbn; exact (Hcb m Hm)|].
  split.
  - intros z s Hz.
    assert (H3 : 3 <= inject_Z z) by (now rewrite (Zle_Qle 3 z) in Hz).
    assert (H0 : 0 <= inject_Z z) by (eapply Qle_trans; [|exact H3]; discriminate).
    assert (Hfrac : forall c, c <= 1 -> Num.ceil (inject_Z z * c) <= inject_Z z).
    { intros c Hc. apply ceil_below_integer.
      rewrite <- (Qmult_1_r (inject_Z z)) at 2. now apply scale_mono. }
    destruct (Hcb _ H0) as [Hc Hb].
    assert (Htop : Num.max 3 (Num.ceil (inject_Z z * 0.85)) <= inject_Z z).
    { apply max_lub; [exact H3|]. apply Hfrac. discriminate. }
    destruct s; cbn.
    + split; [apply max_ge_l|]. split; [exact Hc|].
      eapply Qle_trans; [exact Hb|exact Htop].
    + split; [eapply Qle_trans; [|apply max_ge_l]; discriminate|].
      split; [exact Hb|exact Htop].
    + split; [eapply Qle_trans; [|apply max_ge_l]; discriminate|].
      split; [exact Htop|apply Qle_refl].
  - intros m Hm. cbn. eapply Qlt_le_trans; [exact Hm|apply max_ge_l].
Qed.

(** ** fixHistoricalPnlRecords: what a run changes and what it reaches *)

Lemma closeTrades_isClose c t :
  In c (PnlFixer.closeTrades t) -> PnlFixer.isClose c = true.
Proof.
  unfold PnlFixer.closeTrades. intros H.
  apply PnlFixerFacts.In_limit, PnlFixerFacts.In_orderBy, List.filter_In in H. tauto.
Qed.

Lemma fixSelected_selected gq t sel c :
  In c sel -> PnlFixer.fixSelected gq t sel c = PnlFixer.fixRow gq t c.
Proof.
  intros Hin. unfold PnlFixer.fixSelected.
  replace (existsb _ sel) with true; [reflexivity|].
  symmetry. apply List.existsb_exists. exists c. split; [exact Hin|apply Z.eqb_refl].
Qed.

Lemma fixSelected_unselected gq t r :
  List.NoDup (List.map Trade.id t) -> In r t -> PnlFixer.isClose r = false ->
  PnlFixer.fixSelected gq t (PnlFixer.closeTrades t) r = r.
Proof.
  intros Hids Hr Hopen. unfold PnlFixer.fixSelected.
  destruct (existsb _ _) eqn:E; [|reflexivity].
  apply List.existsb_exists in E. destruct E as (c & Hc & Hid).
  apply Z.eqb_eq in Hid.
  assert (c = r).
  { symmetry. apply (PnlFixerFacts.unique_by_id t r c Hids Hr); [|now symmetry].
    now apply PnlFixerFacts.In_closeTrades. }
  subst c. apply closeTrades_isClose in Hc. congruence.
Qed.

(** X18.  On a trades table with distinct ids, one run of the fixer changes
    nothing but the pnl and fee columns: the table keeps its rows, their
    order and every other column.  A row that is not a close trade, and a
    row for which no earlier open trade of its symbol exists, is left as it
    is. *)
Theorem X18_fixer_writes_only_pnl_and_fee
  (getQuantoMultiplier : string -> Q) (t : list Trade.t)
  (Hids : List.NoDup (List.map Trade.id t)) :
  List.map PnlFixer.key (PnlFixer.fixHistoricalPnlRecords getQuantoMultiplier t)
  = List.map PnlFixer.key t
  /\ (forall r, In r t -> PnlFixer.isClose r = false ->
                In r (PnlFixer.fixHistoricalPnlRecords getQuantoMultiplier t))
  /\ (forall r, In r t ->
                PnlFixer.openTradeFor (Trade.symbol r) (Trade.timestamp r) t = None ->
                In r (PnlFixer.fixHistoricalPnlRecords getQuantoMultiplier t)).
Proof.
  rewrite (PnlFixerFacts.fix_as_map getQuantoMultiplier t Hids).
  split; [|split].
  - rewrite List.map_map. apply List.map_ext. intros r.
    apply PnlFixerFacts.fixSelected_key.
  - intros r Hr Hopen. apply in_map_iff. exists r. split; [|exact Hr].
    now apply fixSelected_unselected.
  - intros r Hr Hnone. apply in_map_iff. exists r. split; [|exact Hr].
    destruct (PnlFixerFacts.fixSelected_cases getQuantoMultiplier t
                (PnlFixer.closeTrades t) r) as [E|E]; rewrite E; [reflexivity|].
    unfold PnlFixer.fixRow. now rewrite Hnone.
Qed.

Lemma X18_witness :
  List.map PnlFixer.key (PnlFixer.fixHistoricalPnlRecords unitMultiplier aliasedLedger)
  = List.map PnlFixer.key aliasedLedger
  /\ (forall r, In r aliasedLedger -> PnlFixer.isClose r = false ->
                In r (PnlFixer.fixHistoricalPnlRecords unitMultiplier aliasedLedger))
  /\ (forall r, In r aliasedLedger ->
                PnlFixer.openTradeFor (Trade.symbol r) (Trade.timestamp r) aliasedLedger
                = None ->
                In r (PnlFixer.fixHistoricalPnlRecords unitMultiplier aliasedLedger)).
Proof.
  apply (X18_fixer_writes_only_pnl_and_fee unitMultiplier aliasedLedger).
  cbn. repeat constructor; cbn; intuition discriminate.
Defined.

Lemma recompute_net gq c o :
  PnlFixer.recompute gq c o
  = (computeNetPnl (Trade.side c) (Trade.price o) (Trade.price c) (Trade.quantity c)
       (gq (Trade.symbol c ++ "_USDT")%string),
     computeTotalFee (Trade.price o) (Trade.price c) (Trade.quantity c)
       (gq (Trade.symbol c ++ "_USDT")%string)).
Proof. reflexivity. Qed.

(** X19.  After one run on a table with distinct ids, every close trade
    among the 50 most recent that has an earlier open trade of its symbol
    is stored with a pnl within 0.5 of the net PnL recomputed from that
    open trade's price (gross minus open and close fee at the contract's
    multiplier) and a fee within 0.1 of that open plus close fee. *)
Theorem X19_fixer_reaches_tolerance
  (getQuantoMultiplier : string -> Q) (t : list Trade.t) (c o : Trade.t)
  (Hids : List.NoDup (List.map Trade.id t))
  (Hselected : In c (PnlFixer.closeTrades t))
  (Hopen : PnlFixer.openTradeFor (Trade.symbol c) (Trade.timestamp c) t = Some o) :
  let m := getQuantoMultiplier (Trade.symbol c ++ "_USDT")%string in
  let net := computeNetPnl (Trade.side c) (Trade.price o) (Trade.price c)
               (Trade.quantity c) m in
  let fee := computeTotalFee (Trade.price o) (Trade.price c) (Trade.quantity c) m in
  exists c',
    In c' (PnlFixer.fixHistoricalPnlRecords getQuantoMultiplier t)
    /\ PnlFixer.key c' = PnlFixer.key c
    /\ Qabs (PnlFixer.parseOrZero (Trade.pnl c') - net) <= 0.5
    /\ Qabs (PnlFixer.parseOrZero (Trade.fee c') - fee) <= 0.1.
Proof.
  cbv zeta.
  rewrite (PnlFixerFacts.fix_as_map getQuantoMultiplier t Hids).
  exists (PnlFixer.fixRow getQuantoMultiplier t c).
  split.
  { apply in_map_iff. exists c. split; [now apply fixSelected_selected|].
    now apply PnlFixerFacts.In_closeTrades. }
  split; [apply PnlFixerFacts.fixRow_key|].
  unfold PnlFixer.fixRow. rewrite Hopen.
  rewrite recompute_net.
  set (net := computeNetPnl _ _ _ _ _). set (fee := computeTotalFee _ _ _ _).
  destruct (PnlFixer.needsFix c net fee) eqn:E.
  - assert (Hself : forall x b, 0 <= b -> Qabs (x - x) <= b).
    { intros x b Hb. assert (H0 : x - x == 0) by ring. rewrite H0. exact Hb. }
    split; apply Hself; discriminate.
  - unfold PnlFixer.needsFix in E. cbv zeta in E.
    apply orb_false_iff in E. destruct E as [E1 E2].
    apply NumFacts.gtb_le in E1. apply NumFacts.gtb_le in E2.
    split; assumption.
Qed.

Lemma X19_witness :
  exists c',
    In c' (PnlFixer.fixHistoricalPnlRecords unitMultiplier aliasedLedger)
    /\ PnlFixer.key c'
       = PnlFixer.key (Trade.mk 2 "12" "BTC" long "close" 110 10 5 (Some 1100) (Some 1.05)
                         "2025-01-01T06:00:00" "filled")
    /\ Qabs (PnlFixer.parseOrZero (Trade.pnl c') - computeNetPnl long 100 110 10 1) <= 0.5
    /\ Qabs (PnlFixer.parseOrZero (Trade.fee c') - computeTotalFee 100 110 10 1) <= 0.1.
Proof.
  apply (X19_fixer_reaches_tolerance unitMultiplier aliasedLedger
           (Trade.mk 2 "12" "BTC" long "close" 110 10 5 (Some 1100) (Some 1.05)
              "2025-01-01T06:00:00" "filled")
           (Trade.mk 1 "11" "BTC" long "open" 100 10 5 None (Some 0.5)
              "2025-01-01T00:00:00" "filled")).
  - cbn. repeat constructor; cbn; intuition discriminate.
  - vm_compute. left. reflexivity.
  - vm_compute. reflexivity.
Defined.

(** ** openPositionTool: the Binance minimum notional *)




(** ** Technical indicators *)









Lemma gainsLosses_fold_nonneg prices l : forall acc,
  0 <= fst acc -> 0 <= snd acc ->
  0 <= fst (fold_left
              (fun acc i =>
                 let change := nth i prices 0 - nth (i - 1) prices 0 in
                 if Num.gtb change 0 then (fst acc + change, snd acc)
                 else (fst acc, snd acc - change)) l acc)
  /\ 0 <= snd (fold_left
                 (fun acc i =>
                    let change := nth i prices 0 - nth (i - 1) prices 0 in
                    if Num.gtb change 0 then (fst acc + change, snd acc)
                    else (fst acc, snd acc - change)) l acc).
Proof.
  induction l as [|i l IH]; intros acc Hg Hl; [now split|].
  cbn [fold_left]. apply IH; cbv zeta;
    destruct (Num.gtb (nth i prices 0 - nth (i - 1) prices 0) 0) eqn:E; cbn [fst snd];
    try assumption.
  - apply NumFacts.gtb_gt in E. lra.
  - apply NumFacts.gtb_le in E. lra.
Qed.

Lemma gainsLosses_nonneg prices period :
  0 <= fst (Indicators.gainsLosses prices period)
  /\ 0 <= snd (Indicators.gainsLosses prices period).
Proof.
  unfold Indicators.gainsLosses. apply gainsLosses_fold_nonneg; apply Qle_refl.
Qed.

Lemma ensureRange_between value lo hi d :
  lo <= hi ->
  lo <= Indicators.ensureRange value lo hi d <= hi
  /\ (lo <= value <= hi -> Indicators.ensureRange value lo hi d = value).
Proof.
  intros Hle. unfold Indicators.ensureRange. cbn [Num.isFinite negb].
  destruct (Num.ltb value lo) eqn:E1.
  { apply NumFacts.ltb_lt in E1. split; [split; [apply Qle_refl|exact Hle]|].
    intros [H _]. exfalso. exact (Qlt_not_le _ _ E1 H). }
  apply NumFacts.ltb_ge in E1.
  destruct (Num.gtb value hi) eqn:E2.
  { apply NumFacts.gtb_gt in E2. split; [split; [exact Hle|apply Qle_refl]|].
    intros [_ H]. exfalso. exact (Qlt_not_le _ _ E2 H). }
  apply NumFacts.gtb_le in E2. split; [now split|reflexivity].
Qed.

(** X23.  The RSI always lies between 0 and 100, and it is the neutral 50
    when there are fewer than period + 1 prices.  With enough prices and
    [gains], [losses] the sums of the rises and of the falls over the last
    [period] price changes: when there was a fall the RSI is
    100 x gains / (gains + losses), so the final clamp never acts; with no
    fall it is 100 when there was a rise and 50 when the prices were flat. *)
Theorem X23_rsi_range_and_value (prices : list Q) (period : nat) :
  let gains := fst (Indicators.gainsLosses prices period) in
  let losses := snd (Indicators.gainsLosses prices period) in
  0 <= Indicators.calcRSI prices period <= 100
  /\ ((length prices < period + 1)%nat -> Indicators.calcRSI prices period = 50)
  /\ ((period + 1 <= length prices)%nat ->
      (0 < losses ->
       Indicators.calcRSI prices period == 100 * gains / (gains + losses))
      /\ (losses == 0 -> 0 < gains -> Indicators.calcRSI prices period = 100)
      /\ (losses == 0 -> gains == 0 -> Indicators.calcRSI prices period = 50)).
Proof.
  cbv zeta. unfold Indicators.calcRSI.
  destruct (gainsLosses_nonneg prices period) as [HG HL].
  assert (Hzero : period = 0%nat -> Indicators.gainsLosses prices period = (0, 0)).
  { intros ->. reflexivity. }
  destruct (Indicators.gainsLosses prices period) as [G L]. cbn [fst snd] in *.
  destruct (Nat.ltb_spec (length prices) (period + 1)) as [Hshort|Hlong].
  { split; [split; discriminate|]. split; [reflexivity|lia]. }
  set (P := inject_Z (Z.of_nat period)).
  assert (HP : 0 <= P).
  { unfold P. change 0 with (inject_Z 0). rewrite <- Zle_Qle. lia. }
  assert (Hperiod : 0 < G \/ 0 < L -> 0 < P).
  { intros Hsome. unfold P. change 0 with (inject_Z 0). rewrite <- Zlt_Qlt.
    destruct period; [|lia]. specialize (Hzero eq_refl). injection Hzero as -> ->.
    destruct Hsome as [H|H]; discriminate H. }
  split; [|split; [lia|intros _; split; [|split]]].
  - destruct (Num.eqb (L / P) 0); [destruct (Num.gtb (G / P) 0); split; discriminate|].
    apply ensureRange_between. discriminate.
  - intros HLpos.
    assert (HPpos : 0 < P) by (apply Hperiod; now right).
    assert (Havg : 0 < L / P).
    { apply Qlt_shift_div_l; [exact HPpos|]. now rewrite Qmult_0_l. }
    assert (Eq0 : Num.eqb (L / P) 0 = false).
    { unfold Num.eqb. destruct (Qeq_bool (L / P) 0) eqn:E; [|reflexivity].
      apply Qeq_bool_iff in E. rewrite E in Havg. discriminate. }
    rewrite Eq0.
    assert (Hsum : 0 < G + L) by lra.
    assert (Ersi : 100 - 100 / (1 + G / P / (L / P)) == 100 * G / (G + L)).
    { field. repeat split; lra. }
    assert (Hrange : 0 <= 100 - 100 / (1 + G / P / (L / P)) <= 100).
    { rewrite Ersi. split.
      - apply Qle_shift_div_l; [exact Hsum|]. lra.
      - apply Qle_shift_div_r; [exact Hsum|]. lra. }
    destruct (ensureRange_between (100 - 100 / (1 + G / P / (L / P))) 0 100 (Some 50)
                ltac:(discriminate)) as [_ Hid].
    rewrite (Hid Hrange). exact Ersi.
  - intros HL0 HGpos.
    assert (HPpos : 0 < P) by (apply Hperiod; now left).
    assert (Eq0 : Num.eqb (L / P) 0 = true).
    { unfold Num.eqb. apply Qeq_bool_iff. rewrite HL0. unfold Qdiv. ring. }
    rewrite Eq0.
    replace (Num.gtb (G / P) 0) with true; [reflexivity|].
    symmetry. apply NumFacts.gtb_gt.
    apply Qlt_shift_div_l; [exact HPpos|]. now rewrite Qmult_0_l.
  - intros HL0 HG0.
    assert (Eq0 : Num.eqb (L / P) 0 = true).
    { unfold Num.eqb. apply Qeq_bool_iff. rewrite HL0. unfold Qdiv. ring. }
    rewrite Eq0.
    replace (Num.gtb (G / P) 0) with false; [reflexivity|].
    symmetry. apply NumFacts.gtb_le. rewrite HG0. unfold Qdiv. ring_simplify.
    apply Qle_refl.
Qed.







(** ** Exchange adapters *)

(** X25.  Every position the Gate.io adapter returns has a positive
    quantity and comes from a raw position of non-zero size; the signed
    size the getPositions tool reports for it is the raw size again, its
    side is long exactly for a positive raw size, and a reduce-only order
    on the opposite side for its quantity is sent with the negated raw
    size. *)
Theorem X25_gate_positions_keep_the_signed_size
  (rawPositions : list GateAdapter.RawPosition) (p : Position.t)
  (Hreturned : In p (GateAdapter.getPositions rawPositions)) :
  0 < Position.quantity p
  /\ exists r,
       In r rawPositions
       /\ GateAdapter.size r <> 0%Z
       /\ Position.exchangeSymbol p = GateAdapter.contract r
       /\ reportedSize p == inject_Z (GateAdapter.size r)
       /\ (Position.side p = long <-> (0 < GateAdapter.size r)%Z)
       /\ GateAdapter.orderSize
            (OrderParams.mk (Position.symbol p) (opposite (Position.side p))
                            (Position.quantity p) None true)
          == - inject_Z (GateAdapter.size r).
Proof.
  unfold GateAdapter.getPositions in Hreturned.
  apply in_map_iff in Hreturned. destruct Hreturned as (r & <- & Hr).
  apply List.filter_In in Hr. destruct Hr as [Hr Hsize].
  apply negb_true_iff, Z.eqb_neq in Hsize.
  unfold GateAdapter.toPosition, reportedSize, GateAdapter.orderSize. cbn.
  split.
  { change 0 with (inject_Z 0). rewrite <- Zlt_Qlt. lia. }
  exists r. split; [exact Hr|]. split; [exact Hsize|]. split; [reflexivity|].
  destruct (Z.ltb_spec 0 (GateAdapter.size r)) as [Hpos|Hneg]; cbn.
  - rewrite Z.abs_eq by lia. split; [reflexivity|]. split; [tauto|reflexivity].
  - rewrite Z.abs_neq by lia. rewrite inject_Z_opp.
    split; [ring|]. split; [|ring].
    split; [discriminate|lia].
Qed.

Lemma X25_witness :
  0 < Position.quantity (GateAdapter.toPosition rawShort)
  /\ exists r,
       In r [rawFlat; rawShort]
       /\ GateAdapter.size r <> 0%Z
       /\ Position.exchangeSymbol (GateAdapter.toPosition rawShort)
          = GateAdapter.contract r
       /\ reportedSize (GateAdapter.toPosition rawShort) == inject_Z (GateAdapter.size r)
       /\ (Position.side (GateAdapter.toPosition rawShort) = long
           <-> (0 < GateAdapter.size r)%Z)
       /\ GateAdapter.orderSize
            (OrderParams.mk (Position.symbol (GateAdapter.toPosition rawShort))
                            (opposite (Position.side (GateAdapter.toPosition rawShort)))
                            (Position.quantity (GateAdapter.toPosition rawShort))
                            None true)
          == - inject_Z (GateAdapter.size r).
Proof.
  apply (X25_gate_positions_keep_the_signed_size [rawFlat; rawShort]
           (GateAdapter.toPosition rawShort)).
  cbn. left. reflexivity.
Defined.

Lemma prefix_refl s : String.prefix s s = true.
Proof.
  induction s as [|c s IH]; [reflexivity|]. cbn.
  destruct (ascii_dec c c); [exact IH|contradiction].
Qed.

Lemma append_nil (p : string) : ("" ++ p)%string = p.
Proof. reflexivity. Qed.

Lemma append_cons c (s p : string) : (String c s ++ p)%string = String c (s ++ p).
Proof. reflexivity. Qed.

Lemma includes_app_self pat s : Str.includes pat (s ++ pat) = true.
Proof.
  induction s as [|c s IH].
  - rewrite append_nil. destruct pat as [|a pat]; [reflexivity|].
    cbn [Str.includes]. now rewrite prefix_refl.
  - rewrite append_cons. cbn [Str.includes]. rewrite IH. apply orb_true_r.
Qed.

Lemma includes_cons pat c s :
  Str.includes pat (String c s) = false ->
  String.prefix pat (String c s) = false /\ Str.includes pat s = false.
Proof. cbn [Str.includes]. intros H. now apply orb_false_iff in H. Qed.

(** "_USDT" does not overlap itself: it cannot start inside a symbol and
    end inside an appended "_USDT". *)
Lemma prefix_usdt_app c s :
  String.prefix "_USDT" (String c s) = false ->
  String.prefix "_USDT" (String c s ++ "_USDT") = false.
Proof.
  rewrite append_cons. cbn [String.prefix].
  destruct (ascii_dec "_" c) as [<-|]; [|reflexivity].
  destruct s as [|c2 s]; [reflexivity|]. rewrite append_cons. cbn [String.prefix].
  destruct (ascii_dec "U" c2) as [<-|]; [|reflexivity].
  destruct s as [|c3 s]; [reflexivity|]. rewrite append_cons. cbn [String.prefix].
  destruct (ascii_dec "S" c3) as [<-|]; [|reflexivity].
  destruct s as [|c4 s]; [reflexivity|]. rewrite append_cons. cbn [String.prefix].
  destruct (ascii_dec "D" c4) as [<-|]; [|reflexivity].
  destruct s as [|c5 s]; [reflexivity|]. rewrite append_cons. cbn [String.prefix].
  destruct (ascii_dec "T" c5) as [<-|]; [|reflexivity].
  intros H. destruct s; discriminate H.
Qed.

Lemma replace_usdt_app s :
  Str.includes "_USDT" s = false ->
  Str.replace "_USDT" "" (s ++ "_USDT") = s.
Proof.
  induction s as [|c s IH]; intros H; [reflexivity|].
  apply includes_cons in H. destruct H as [Hp Hs].
  apply prefix_usdt_app in Hp. rewrite append_cons in Hp |- *.
  cbn [Str.replace]. rewrite Hp. now rewrite IH.
Qed.

Lemma splitHead_slash_app s rest :
  Str.includes "/" s = false ->
  Str.splitHead "/" (s ++ String "/" rest) = s.
Proof.
  induction s as [|c s IH]; intros H.
  - rewrite append_nil. reflexivity.
  - apply includes_cons in H. destruct H as [Hp Hs].
    rewrite append_cons. cbn [Str.splitHead].
    cbn [String.prefix] in Hp.
    destruct (Ascii.eqb_spec c "/") as [->|Hne].
    + destruct (ascii_dec "/" "/"); [|contradiction]. destruct s; discriminate.
    + now rewrite IH.
Qed.

Lemma includes_slash_inside s t : Str.includes "/" (s ++ String "/" t) = true.
Proof.
  induction s as [|c s IH].
  - rewrite append_nil. cbn [Str.includes String.prefix].
    destruct (ascii_dec "/" "/"); [|contradiction]. destruct t; reflexivity.
  - rewrite append_cons. cbn [Str.includes]. rewrite IH. apply orb_true_r.
Qed.

(** X26.  For both adapters, turning a plain symbol (one without the
    adapter's marker, "_USDT" for Gate.io and "/" for Binance) into the
    exchange symbol and back gives the symbol again, and normalising an
    already normalised symbol changes nothing. *)
Theorem X26_symbol_round_trip (symbol : string) :
  (Str.includes "_USDT" symbol = false ->
   GateAdapter.denormalizeSymbol (GateAdapter.normalizeSymbol symbol) = symbol)
  /\ GateAdapter.normalizeSymbol (GateAdapter.normalizeSymbol symbol)
     = GateAdapter.normalizeSymbol symbol
  /\ (Str.includes "/" symbol = false ->
      BinanceAdapter.denormalizeSymbol (BinanceAdapter.normalizeSymbol symbol) = symbol)
  /\ BinanceAdapter.normalizeSymbol (BinanceAdapter.normalizeSymbol symbol)
     = BinanceAdapter.normalizeSymbol symbol.
Proof.
  split; [|split; [|split]].
  - intros H. unfold GateAdapter.normalizeSymbol, GateAdapter.denormalizeSymbol.
    rewrite H. now apply replace_usdt_app.
  - unfold GateAdapter.normalizeSymbol.
    destruct (Str.includes "_USDT" symbol) eqn:E.
    + now rewrite E.
    + now rewrite includes_app_self.
  - intros H. unfold BinanceAdapter.normalizeSymbol, BinanceAdapter.denormalizeSymbol.
    rewrite H. rewrite includes_slash_inside. cbn [negb].
    now apply splitHead_slash_app.
  - unfold BinanceAdapter.normalizeSymbol.
    destruct (Str.includes "/" symbol) eqn:E.
    + now rewrite E.
    + now rewrite includes_slash_inside.
Qed.

Lemma toLowerCase_nonempty s : Str.toLowerCase s = "binance"%string -> s <> EmptyString.
Proof. intros H ->. discriminate H. Qed.

(** X27.  The exchange factory and the open tool read the EXCHANGE variable
    differently.  The factory lower-cases it and defaults to Gate.io: it
    builds the Binance client exactly when the lower-cased value is
    "binance".  The open tool compares the raw value, with "binance" as the
    default: it applies the Binance minimum notional exactly when the
    variable is unset, empty or literally "binance".  So with the variable
    unset the client is Gate.io while the Binance rule is applied, and with
    "Binance" the client is Binance while the rule is not applied. *)
Theorem X27_exchange_selection (env : option string) :
  (ExchangeFactory.createExchangeClient env = ExchangeFactory.Binance
   <-> exists s, env = Some s /\ Str.toLowerCase s = "binance"%string)
  /\ (String.eqb (ExchangeFactory.exchangeType env) "binance" = true
      <-> env = None \/ env = Some EmptyString \/ env = Some "binance"%string)
  /\ (ExchangeFactory.createExchangeClient None = ExchangeFactory.Gate
      /\ String.eqb (ExchangeFactory.exchangeType None) "binance" = true)
  /\ (ExchangeFactory.createExchangeClient (Some "Binance"%string)
      = ExchangeFactory.Binance
      /\ String.eqb (ExchangeFactory.exchangeType (Some "Binance"%string)) "binance"
         = false).
Proof.
  split; [|split; [|split; split; reflexivity]].
  - unfold ExchangeFactory.createExchangeClient, ExchangeFactory.getConfiguredExchange.
    cbv zeta. split.
    + intros H.
      destruct (String.eqb _ "gateio" || String.eqb _ "gate"); [discriminate|].
      destruct (String.eqb_spec
                  (Str.toLowerCase (ExchangeFactory.orDefault env "gateio")) "binance")
        as [E|]; [|discriminate].
      destruct env as [[|c s]|]; try discriminate E.
      exists (String c s). split; [reflexivity|exact E].
    + intros (s & -> & E).
      pose proof (toLowerCase_nonempty s E) as Hne.
      destruct s as [|c s]; [contradiction|].
      cbn [ExchangeFactory.orDefault]. rewrite E. reflexivity.
  - unfold ExchangeFactory.exchangeType. split.
    + intros H. apply String.eqb_eq in H.
      destruct env as [[|c s]|]; cbn [ExchangeFactory.orDefault] in H; auto.
      right. right. now rewrite H.
    + intros [->|[->| ->]]; reflexivity.
Qed.

(** ** calculateRiskTool *)

Lemma totalNotional_fold gq l : forall acc,
  fold_left (fun sum p => sum + CalculateRisk.notionalValue p)
            (List.map (CalculateRisk.positionRisk gq) l) acc
  = fold_left (fun acc pos =>
                 acc + Position.quantity pos * Position.entryPrice pos
                       * gq (Position.exchangeSymbol pos)) l acc.
Proof.
  induction l as [|p l IH]; intros acc; [reflexivity|].
  cbn [List.map fold_left]. rewrite IH. reflexivity.
Qed.

Lemma risk_totals_fold gq l : forall n m,
  m <= n ->
  (forall p, In p l ->
     1 <= Position.leverage p
     /\ 0 <= Position.quantity p * Position.entryPrice p
             * gq (Position.exchangeSymbol p)) ->
  fold_left (fun sum p => sum + CalculateRisk.margin p)
            (List.map (CalculateRisk.positionRisk gq) l) m
  <= fold_left (fun sum p => sum + CalculateRisk.notionalValue p)
               (List.map (CalculateRisk.positionRisk gq) l) n.
Proof.
  induction l as [|p l IH]; intros n m Hmn Hall; [exact Hmn|].
  cbn [List.map fold_left]. apply IH; [|intros q Hq; apply Hall; now right].
  destruct (Hall p ltac:(now left)) as [Hlev Hnot].
  cbn [CalculateRisk.positionRisk CalculateRisk.margin CalculateRisk.notionalValue].
  set (v := Position.quantity p * Position.entryPrice p
            * gq (Position.exchangeSymbol p)) in *.
  assert (Hdiv : v / Position.leverage p <= v).
  { apply Qle_shift_div_r; [lra|].
    assert (E : v == v * 1) by ring. rewrite E at 1.
    rewrite (Qmult_comm v 1), (Qmult_comm v (Position.leverage p)).
    apply Qmult_le_compat_r; assumption. }
  lra.
Qed.

(** X28.  The total notional that calculateRisk reports is the exposure
    the open tool checks against its limit: whenever the open tool places
    an order, that total plus the new position's value (amount x leverage)
    is at most total balance x MAX_LEVERAGE.  When every position has a
    leverage of at least 1 and a non-negative notional, the total margin
    the tool reports is at most the total notional. *)
Theorem X28_risk_report_and_exposure_limit
  (cfg : OpenPosition.Config) (w : OpenPosition.World) (i : OpenPosition.Intent)
  (o : OrderParams.t) (a : OpenPosition.After)
  (Hplaced : OpenPosition.openPositionTool cfg w i = OpenPosition.Placed o a) :
  let risks := List.map (CalculateRisk.positionRisk (OpenPosition.getQuantoMultiplier w))
                        (OpenPosition.positions w) in
  CalculateRisk.totalNotional risks = OpenPosition.currentTotalExposure w
  /\ CalculateRisk.totalNotional risks
     + OpenPosition.amountUsdt i * OpenPosition.leverage i
     <= OpenPosition.totalBalance w * OpenPosition.MAX_LEVERAGE cfg
  /\ ((forall p, In p (OpenPosition.positions w) ->
         1 <= Position.leverage p
         /\ 0 <= Position.quantity p * Position.entryPrice p
                 * OpenPosition.getQuantoMultiplier w (Position.exchangeSymbol p)) ->
      CalculateRisk.totalMargin risks <= CalculateRisk.totalNotional risks).
Proof.
  cbv zeta.
  assert (E : CalculateRisk.totalNotional
                (List.map (CalculateRisk.positionRisk (OpenPosition.getQuantoMultiplier w))
                          (OpenPosition.positions w))
              = OpenPosition.currentTotalExposure w).
  { unfold CalculateRisk.totalNotional, OpenPosition.currentTotalExposure.
    apply totalNotional_fold. }
  split; [exact E|]. split.
  - rewrite E.
    destruct (open_placed_guards cfg w i o a Hplaced) as (_ & _ & _ & _ & Hexp & _).
    now apply NumFacts.gtb_le in Hexp.
  - intros Hall. unfold CalculateRisk.totalMargin, CalculateRisk.totalNotional.
    apply risk_totals_fold; [apply Qle_refl|exact Hall].
Qed.

Lemma X28_witness :
  exists o a,
    OpenPosition.openPositionTool (openConfig false) hedgedWorld shortIntent
    = OpenPosition.Placed o a
    /\ CalculateRisk.totalNotional
         (List.map (CalculateRisk.positionRisk (OpenPosition.getQuantoMultiplier hedgedWorld))
                   (OpenPosition.positions hedgedWorld))
       + OpenPosition.amountUsdt shortIntent * OpenPosition.leverage shortIntent
       <= OpenPosition.totalBalance hedgedWorld
          * OpenPosition.MAX_LEVERAGE (openConfig false).
Proof.
  assert (Hrun : exists o a,
             OpenPosition.openPositionTool (openConfig false) hedgedWorld shortIntent
             = OpenPosition.Placed o a).
  { eexists _, _. vm_compute. reflexivity. }
  destruct Hrun as (o & a & Hrun). exists o, a. split; [exact Hrun|].
  exact (proj1 (proj2 (X28_risk_report_and_exposure_limit _ _ _ _ _ Hrun))).
Defined.

(** ** Decision parser *)



